(** * Knapsack instance generators

    A shallow embedding of the two generator scripts of the repository,

    - [instance_generator.py]: clamps an out-of-range [ne] with a printed
      notice, seeds one dependency per package, then fills the pair set by
      rejection sampling (module [InstanceGenerator]);
    - [gerador_de_instâncias.py]: enumerates all [m*n] pairs, shuffles them
      and keeps the first [ne], raising when [ne] exceeds [m*n]
      (module [GeradorDeInstancias]);

    together with the properties of the text they return.

    Python integers are unbounded, hence [Z].  The process-wide random
    source of Python's [random] module is threaded explicitly; what a call
    prints is collected in a trace of events. *)

From Stdlib Require Import ZArith List String Ascii Bool Lia Permutation.
From Stdlib Require Import Decimal DecimalString DecimalPos DecimalZ Cantor FinFun.
Import ListNotations.
Local Open Scope string_scope.
Local Open Scope Z_scope.
Local Open Scope list_scope.

(** ** Text: [str], [" ".join], [split] *)

(** Python's [str(i)] on an [int]: decimal digits, a leading ["-"] for
    negative numbers. *)
Definition str (z : Z) : string := NilZero.string_of_int (Z.to_int z).

(** [sep.join(parts)] *)
Definition join (sep : string) (parts : list string) : string :=
  String.concat sep parts.

Definition space : ascii := " "%char.
Definition newline : ascii := "010"%char.
Definition nl : string := String newline EmptyString.

(** [s.split(c)] for a one-character separator [c]: the fields between
    consecutive occurrences of [c] (always at least one field). *)
Fixpoint split (c : ascii) (s : string) : list string :=
  match s with
  | EmptyString => [EmptyString]
  | String a rest =>
      if Ascii.eqb a c then EmptyString :: split c rest
      else match split c rest with
           | [] => [String a EmptyString]
           | f :: fs => String a f :: fs
           end
  end.

(** [c in s] *)
Fixpoint occurs (c : ascii) (s : string) : bool :=
  match s with
  | EmptyString => false
  | String a rest => Ascii.eqb a c || occurs c rest
  end.

(** The characters of a decimal numeral. *)
Definition digit_or_minus (a : ascii) : bool :=
  Ascii.eqb a "-" ||
  (Nat.leb 48 (nat_of_ascii a) && Nat.leb (nat_of_ascii a) 57).

Fixpoint all_chars (P : ascii -> bool) (s : string) : bool :=
  match s with
  | EmptyString => true
  | String a rest => P a && all_chars P rest
  end.

(** ** Python's [range] and slicing *)

(** [range(m)]: empty when [m <= 0]. *)
Definition range (m : Z) : list Z := map Z.of_nat (seq 0 (Z.to_nat m)).

(** [l[:k]]: a negative [k] counts from the end. *)
Definition slice_to {A : Type} (l : list A) (k : Z) : list A :=
  if k <? 0 then firstn (Z.to_nat (Z.of_nat (List.length l) + k)) l
  else firstn (Z.to_nat k) l.

(** ** The set of pairs

    [pairs_set] is a Python [set] of tuples.  It is kept as the list of its
    elements in order of first insertion; [len] is the length of that list.
    The order in which [list(pairs_set)] enumerates the elements is fixed by
    the interpreter's hash table and treated as an unknown rearrangement
    ([iteration_order] below). *)

Definition pair_eq_dec (x y : Z * Z) : {x = y} + {x <> y}.
Proof. decide equality; apply Z.eq_dec. Defined.

Definition mem (x : Z * Z) (S : list (Z * Z)) : bool :=
  if in_dec pair_eq_dec x S then true else false.

Definition set_add (x : Z * Z) (S : list (Z * Z)) : list (Z * Z) :=
  if mem x S then S else S ++ [x].

Definition len {A : Type} (l : list A) : Z := Z.of_nat (List.length l).

Class SetIteration := {
  iteration_order : list (Z * Z) -> list (Z * Z);
  iteration_order_perm : forall S, Permutation S (iteration_order S)
}.

(** List order as the iteration order of the set. *)
Definition insertion_order : SetIteration :=
  {| iteration_order := fun S => S;
     iteration_order_perm := fun S => Permutation_refl S |}.

(** ** The random source

    The interface of Python's [random] module that the scripts use:
    [seed], [randint] and [shuffle], over an explicit generator state.
    [randint a b] raises [ValueError] on an empty range, returns a value of
    [a..b] otherwise; [shuffle] rearranges its argument. *)

Class RandomSource := {
  rstate : Type;
  seed : Z -> rstate;
  randint : Z -> Z -> rstate -> option (Z * rstate);
  shuffle : forall {A : Type}, list A -> rstate -> list A * rstate;
  randint_range : forall a b s, a <= b ->
    exists v s', randint a b s = Some (v, s') /\ a <= v <= b;
  randint_empty : forall a b s, b < a -> randint a b s = None;
  shuffle_perm : forall (A : Type) (l : list A) s,
    Permutation l (fst (shuffle l s))
}.

(** ** Effects: exceptions, console, storage, the generator state *)

Inductive exn :=
| ValueError_empty_range (a b : Z)   (* raised by [random.randint(a, b)] *)
| ValueError (msg : string)          (* [raise ValueError(msg)] *)
| EOFError                           (* raised by [input()] at end of file *)
| IOError (msg : string).            (* raised by [open] or [f.write]; [str(e) = msg] *)

(** [isinstance(e, ValueError)] *)
Definition is_ValueError (e : exn) : bool :=
  match e with
  | ValueError_empty_range _ _ | ValueError _ => true
  | EOFError | IOError _ => false
  end.

Inductive event :=
| Print (line : string)
| WriteFile (name data : string).

Inductive outcome (A : Type) :=
| Ok (a : A)
| Raise (e : exn)
| OutOfFuel.
Arguments Ok {A} a.
Arguments Raise {A} e.
Arguments OutOfFuel {A}.

(** The outcome and the events of a run. *)
Definition result {A S : Type} (r : outcome A * list event * S) : outcome A :=
  fst (fst r).

Definition events {A S : Type} (r : outcome A * list event * S) : list event :=
  snd (fst r).

Section Effects.
Context {RS : RandomSource}.

(** A computation reads the generator state and yields an outcome, the
    events it caused and the new generator state.  An exception keeps the
    events and the state reached when it was raised. *)
Definition M (A : Type) : Type := rstate -> outcome A * list event * rstate.

Definition ret {A} (a : A) : M A := fun s => (Ok a, [], s).

Definition bind {A B} (c : M A) (k : A -> M B) : M B :=
  fun s =>
    match c s with
    | (Ok a, t, s') => let '(r, t', s'') := k a s' in (r, t ++ t', s'')
    | (Raise e, t, s') => (Raise e, t, s')
    | (OutOfFuel, t, s') => (OutOfFuel, t, s')
    end.

Definition raise {A} (e : exn) : M A := fun s => (Raise e, [], s).

Definition print (line : string) : M unit := fun s => (Ok tt, [Print line], s).

Definition random_seed (sd : Z) : M unit := fun _ => (Ok tt, [], seed sd).

Definition random_randint (a b : Z) : M Z :=
  fun s =>
    match randint a b s with
    | Some (v, s') => (Ok v, [], s')
    | None => (Raise (ValueError_empty_range a b), [], s)
    end.

Definition random_shuffle {A} (l : list A) : M (list A) :=
  fun s => let '(l', s') := shuffle l s in (Ok l', [], s').

(** [with open(name, "w") as f: f.write(data)].  Whether the file system
    lets the file be written is not the script's doing: [failure] is [None]
    when it does, and [Some msg] when [open] or [write] raises an [IOError]
    whose text is [msg].  [WriteFile] records a write that was completed. *)
Definition write_file (failure : option string) (name data : string) : M unit :=
  match failure with
  | None => fun s => (Ok tt, [WriteFile name data], s)
  | Some msg => fun s => (Raise (IOError msg), [], s)
  end.

(** [try: c  except ...: h]: the handler [h] gets the exception raised by
    [c] and chooses by its class. *)
Definition try_except {A} (c : M A) (h : exn -> M A) : M A :=
  fun s =>
    match c s with
    | (Raise e, t, s') => let '(r, t', s'') := h e s' in (r, t ++ t', s'')
    | r => r
    end.

(** [[f(x) for x in xs]] *)
Fixpoint for_list {A B} (xs : list A) (f : A -> M B) : M (list B) :=
  match xs with
  | [] => ret []
  | x :: xs' => bind (f x) (fun y => bind (for_list xs' f) (fun ys => ret (y :: ys)))
  end.

(** [for x in xs: acc = f(acc, x)] *)
Fixpoint for_fold {A S} (xs : list A) (f : S -> A -> M S) (acc : S) : M S :=
  match xs with
  | [] => ret acc
  | x :: xs' => bind (f acc x) (for_fold xs' f)
  end.
End Effects.

Declare Scope py_scope.
Delimit Scope py_scope with py.
Notation "x <- c ;; k" := (bind c (fun x => k))
  (at level 61, c at next level, right associativity) : py_scope.
Notation "c ;;; k" := (bind c (fun _ => k))
  (at level 61, right associativity) : py_scope.
Local Open Scope py_scope.

(** ** The instance and its text *)

Record instance := {
  inst_m : Z;
  inst_n : Z;
  inst_ne : Z;
  inst_b : Z;
  benefits : list Z;
  deps : list Z;
  pairs : list (Z * Z)
}.

Definition header_line (m n ne b : Z) : string :=
  (str m ++ " " ++ str n ++ " " ++ str ne ++ " " ++ str b)%string.

Definition values_line (vs : list Z) : string := join " " (map str vs).

Definition pair_line (p : Z * Z) : string :=
  (str (fst p) ++ " " ++ str (snd p))%string.

(** The list [out] of both scripts, line by line. *)
Definition out_lines (I : instance) : list string :=
  [header_line (inst_m I) (inst_n I) (inst_ne I) (inst_b I)]
    ++ [values_line (benefits I)]
    ++ [values_line (deps I)]
    ++ map pair_line (pairs I).

Definition render (I : instance) : string := join nl (out_lines I).

(** Reading the text back: its lines, the fields of the header line, the
    lines after the first three. *)
Definition text_lines (text : string) : list string := split newline text.

Definition header_fields (text : string) : list string :=
  split space (hd "" (text_lines text)).

Definition pair_lines (text : string) : list string := skipn 3 (text_lines text).

(** The layout of an instance file for [m] packages, [n] dependencies,
    [ne] pairs and capacity [b]: a header line, a line of [m] values, a
    line of [n] values, then [ne] lines of one pair each. *)
Definition laid_out (m n ne b : Z) (text : string) : Prop :=
  exists bs ds ps,
    text_lines text
    = header_line m n ne b :: values_line bs :: values_line ds :: map pair_line ps
    /\ len (text_lines text) = 3 + ne
    /\ header_fields text = [str m; str n; str ne; str b]
    /\ split space (values_line bs) = map str bs /\ len bs = m
    /\ split space (values_line ds) = map str ds /\ len ds = n
    /\ len ps = ne
    /\ Forall (fun q => split space (pair_line q) = [str (fst q); str (snd q)]) ps.

(** ** [instance_generator.py] *)

Module InstanceGenerator.
Section Gen.
Context {RS : RandomSource} {SI : SetIteration}.

Definition too_small_notice (ne m : Z) : string :=
  ("[!] ne=" ++ str ne ++ " is too small. Adjusted to " ++ str m
    ++ " to ensure each package has a dependency.")%string.

Definition too_large_notice (ne m n : Z) : string :=
  ("[!] ne=" ++ str ne ++ " is too large. Adjusted to maximum possible "
    ++ str (m * n) ++ ".")%string.

(** Validation: [ne] is brought into [m, m*n]. *)
Definition adjust (m n ne : Z) : M Z :=
  if ne <? m then print (too_small_notice ne m) ;;; ret m
  else if ne >? m * n then print (too_large_notice ne m n) ;;; ret (m * n)
  else ret ne.

(** Step 1: one dependency for each package. *)
Definition cover (m n : Z) : M (list (Z * Z)) :=
  for_fold (range m)
    (fun pairs_set i => j <- random_randint 0 (n - 1) ;; ret (set_add (i, j) pairs_set))
    [].

(** Step 2: [while len(pairs_set) < ne: ...].  The loop has no bound in
    the script; [fuel] bounds the number of iterations here. *)
Fixpoint fill (fuel : nat) (m n ne : Z) (pairs_set : list (Z * Z))
  : M (list (Z * Z)) :=
  if len pairs_set <? ne then
    match fuel with
    | O => fun s => (OutOfFuel, [], s)
    | S fuel' =>
        p <- random_randint 0 (m - 1) ;;
        d <- random_randint 0 (n - 1) ;;
        fill fuel' m n ne (set_add (p, d) pairs_set)
    end
  else ret pairs_set.

Definition build (fuel : nat) (m n ne b benefit_max dep_max : Z)
           (seed : option Z) : M instance :=
  match seed with Some sd => random_seed sd | None => ret tt end ;;;
  ne <- adjust m n ne ;;
  benefits <- for_list (range m) (fun _ => random_randint 10 benefit_max) ;;
  deps <- for_list (range n) (fun _ => random_randint 5 dep_max) ;;
  pairs_set <- cover m n ;;
  pairs_set <- fill fuel m n ne pairs_set ;;
  pairs <- random_shuffle (iteration_order pairs_set) ;;
  ret {| inst_m := m; inst_n := n; inst_ne := ne; inst_b := b;
         benefits := benefits; deps := deps; pairs := pairs |}.

Definition gen_instance (fuel : nat) (m n ne b benefit_max dep_max : Z)
           (seed : option Z) : M string :=
  I <- build fuel m n ne b benefit_max dep_max seed ;; ret (render I).

(** What [map(int, input().split())] makes of the line typed: the integers
    when every token is an integer literal, a [ValueError] when one is not,
    an [EOFError] when there is no line to read. *)
Inductive typed_input :=
| Integers (values : list Z)
| NotIntegers
| EndOfFile.

(** [m, n, ne, b = map(int, input().split())]: anything but four values
    fails to unpack, with a [ValueError] too (its text is never shown). *)
Definition read_sizes (typed : typed_input) : M (Z * Z * Z * Z) :=
  match typed with
  | Integers [m; n; ne; b] => ret (m, n, ne, b)
  | Integers _ => raise (ValueError "values to unpack")
  | NotIntegers => raise (ValueError "invalid literal for int()")
  | EndOfFile => raise EOFError
  end.

(** The three [except] clauses, tried in order: [ValueError], [IOError],
    [Exception]. *)
Definition report (e : exn) : M unit :=
  match e with
  | ValueError_empty_range _ _ | ValueError _ =>
      print "❌ Invalid input. Please enter four integers separated by spaces."
  | IOError msg => print ("❌ File error: " ++ msg)
  | EOFError => print ("❌ Unexpected error: " ++ "EOF when reading a line")
  end.

(** The [__main__] block.  [now] is the time stamp
    [datetime.datetime.now().strftime("%Y%m%d_%H%M%S")], [typed] what the
    input line amounts to and [failure] what the file system does with the
    write (see [write_file]).  Printing is taken to succeed, and no
    interrupt to arrive. *)
Definition main (fuel : nat) (now : string) (typed : typed_input)
           (failure : option string) : M unit :=
  let filename := (now ++ ".knapsack.txt")%string in
  try_except
    (print "▶ Enter values for m, n, ne, b (space-separated)." ;;;
     print "  Note: 'ne' must be >= m and <= m*n." ;;;
     print "  Example: 870 900 1500 18383" ;;;
     sizes <- read_sizes typed ;;
     let '(m, n, ne, b) := sizes in
     instance_data <- gen_instance fuel m n ne b 600 400 (Some 42) ;;
     write_file failure filename instance_data ;;;
     print ("✅ Problem instance successfully saved as: " ++ filename))
    report.
End Gen.
End InstanceGenerator.

(** ** [gerador_de_instâncias.py] *)

Module GeradorDeInstancias.
Section Gen.
Context {RS : RandomSource}.

(** [[(i, j) for i in range(m) for j in range(n)]] *)
Definition all_pairs (m n : Z) : list (Z * Z) :=
  flat_map (fun i => map (fun j => (i, j)) (range n)) (range m).

Definition build (m n ne b benefit_max dep_max : Z) (seed : option Z)
  : M instance :=
  match seed with Some sd => random_seed sd | None => ret tt end ;;;
  benefits <- for_list (range m) (fun _ => random_randint 10 benefit_max) ;;
  deps <- for_list (range n) (fun _ => random_randint 5 dep_max) ;;
  all_pairs <- random_shuffle (all_pairs m n) ;;
  (if ne >? len all_pairs then raise (ValueError "ne cannot exceed m*n")
   else ret tt) ;;;
  let pairs := slice_to all_pairs ne in
  ret {| inst_m := m; inst_n := n; inst_ne := ne; inst_b := b;
         benefits := benefits; deps := deps; pairs := pairs |}.

Definition gen_instance (m n ne b benefit_max dep_max : Z) (seed : option Z)
  : M string :=
  I <- build m n ne b benefit_max dep_max seed ;; ret (render I).

(** The statement at module level, [# exemplo]. *)
Definition exemplo : M unit :=
  text <- gen_instance 10 15 60 3000 600 400 (Some 42) ;; print text.
End Gen.
End GeradorDeInstancias.

(** ** Notions used in the statements *)

(** The pairs of the [m] by [n] grid. *)
Definition in_grid (m n : Z) (q : Z * Z) : Prop :=
  0 <= fst q < m /\ 0 <= snd q < n.

(** The value of [ne] after validation, and what validation prints. *)
Definition adjusted (m n ne : Z) : Z :=
  if ne <? m then m else if ne >? m * n then m * n else ne.

Definition notices (m n ne : Z) : list event :=
  if ne <? m then [Print (InstanceGenerator.too_small_notice ne m)]
  else if ne >? m * n then [Print (InstanceGenerator.too_large_notice ne m n)]
  else [].

(** What the [__main__] block of [instance_generator.py] prints before it
    reads its input, and what it prints on a [ValueError]. *)
Definition prompts : list event :=
  [Print "▶ Enter values for m, n, ne, b (space-separated).";
   Print "  Note: 'ne' must be >= m and <= m*n.";
   Print "  Example: 870 900 1500 18383"].

Definition invalid_input : event :=
  Print "❌ Invalid input. Please enter four integers separated by spaces.".

Definition unexpected_eof : event :=
  Print "❌ Unexpected error: EOF when reading a line".

Definition file_error (msg : string) : event :=
  Print ("❌ File error: " ++ msg).

(** What the [except] clauses print for an exception. *)
Definition report_event (e : exn) : event :=
  match e with
  | ValueError_empty_range _ _ | ValueError _ => invalid_input
  | IOError msg => file_error msg
  | EOFError => unexpected_eof
  end.

(** The number of pairs [(i, j)] with [i] in [range(m)], [j] in [range(n)]. *)
Definition grid_size (m n : Z) : Z := Z.max 0 m * Z.max 0 n.

Section Notions.
Context {RS : RandomSource} {SI : SetIteration}.

(** The state of the source once [seed] has been looked at. *)
Definition seeded (sd : option Z) (s : rstate) : rstate :=
  match sd with Some x => seed x | None => s end.

(** What remains of [build] once the coverage step is done. *)
Definition finish (fuel : nat) (m n ne b : Z) (bs ds : list Z)
           (S : list (Z * Z)) : M instance :=
  pairs_set <- InstanceGenerator.fill fuel m n ne S ;;
  pairs <- random_shuffle (iteration_order pairs_set) ;;
  ret {| inst_m := m; inst_n := n; inst_ne := ne; inst_b := b;
         benefits := bs; deps := ds; pairs := pairs |}.

(** A computation that causes no event, whatever its outcome. *)
Definition quiet {A} (c : M A) : Prop := forall s, events (c s) = [].

(** [c2] behaves as [c1] wherever [c1] does not run out of fuel. *)
Definition settled {A} (c1 c2 : M A) : Prop :=
  forall s, result (c1 s) <> OutOfFuel -> c2 s = c1 s.
End Notions.

(** ** A random source built on [randbelow]

    CPython derives [randint] and [shuffle] from one primitive,
    [_randbelow(n)], a value of [0..n-1]:  [randint(a, b)] is
    [a + _randbelow(b - a + 1)], and [shuffle] is the Fisher-Yates exchange
    loop [for i in reversed(range(1, len(x)))]. *)

Fixpoint update {A : Type} (i : nat) (v : A) (x : list A) : list A :=
  match x, i with
  | [], _ => []
  | _ :: x', O => v :: x'
  | a :: x', S i' => a :: update i' v x'
  end.

(** [x[i], x[j] = x[j], x[i]] *)
Definition exchange {A : Type} (i j : nat) (x : list A) : list A :=
  match nth_error x i, nth_error x j with
  | Some a, Some b => update i b (update j a x)
  | _, _ => x
  end.

Section Randbelow.
Variable St : Type.
Variable randbelow : Z -> St -> Z * St.

Definition randbelow_randint (a b : Z) (s : St) : option (Z * St) :=
  let width := b + 1 - a in
  if 0 <? width then
    let '(r, s') := randbelow width s in Some (a + r, s')
  else None.

Fixpoint exchange_down {A : Type} (i : nat) (x : list A) (s : St)
  : list A * St :=
  match i with
  | O => (x, s)
  | S i' =>
      let '(j, s') := randbelow (Z.of_nat i + 1) s in
      exchange_down i' (exchange i (Z.to_nat j) x) s'
  end.

Definition randbelow_shuffle {A : Type} (x : list A) (s : St) : list A * St :=
  exchange_down (List.length x - 1) x s.
End Randbelow.

(** A concrete generator: the state counts the draws made so far, and draw
    number [c] reads one component of the [c / 6]-th pair of naturals in
    Cantor's enumeration.  Seeding uses the absolute value of the seed, as
    CPython does for integers. *)
Definition counter_stream (c : nat) : nat :=
  let '(a, b) := Cantor.of_nat (c / 6) in
  if Nat.eqb (c mod 6) 1 then b else a.

Definition counter_randbelow (n : Z) (c : nat) : Z * nat :=
  (Z.of_nat (counter_stream c) mod n, S c).

Definition counter_seed (sd : Z) : nat := Z.abs_nat sd.

(** A source stuck on the least value: [_randbelow] always yields [0]. *)
Definition stuck_randbelow (n : Z) (s : unit) : Z * unit := (0, s).

(** ** Drawing pairs: what the rejection loop needs of the source *)

Section Draws.
Context {RS : RandomSource}.

(** One iteration's two draws, [p] then [d]. *)
Definition draw_pair (m n : Z) (s : rstate) : option ((Z * Z) * rstate) :=
  match randint 0 (m - 1) s with
  | Some (p, s1) =>
      match randint 0 (n - 1) s1 with
      | Some (d, s2) => Some ((p, d), s2)
      | None => None
      end
  | None => None
  end.

(** From state [s], the pair [q] comes up after finitely many draws. *)
Inductive eventually_draws (m n : Z) (q : Z * Z) : rstate -> Prop :=
| draws_now : forall s s', draw_pair m n s = Some (q, s') ->
    eventually_draws m n q s
| draws_later : forall s q' s', draw_pair m n s = Some (q', s') ->
    eventually_draws m n q s' -> eventually_draws m n q s.

(** The source is fair for [m] by [n] pairs: whatever its state, every
    pair of the grid comes up eventually.  A uniform source has this
    property with probability one; a source stuck on one value has not,
    and makes the rejection loop of [instance_generator.py] run for ever. *)
Definition fair (m n : Z) : Prop :=
  forall s p d, 0 <= p < m -> 0 <= d < n -> eventually_draws m n (p, d) s.
End Draws.

(** * Properties *)

(** ** The [randbelow] construction is a random source *)

Lemma update_perm {A : Type} (x : list A) :
  forall i a v, nth_error x i = Some a -> Permutation (v :: x) (a :: update i v x).
Proof.
  induction x as [|h x IH]; intros [|i] a v H; simpl in *; try discriminate.
  - injection H as ->. apply perm_swap.
  - rewrite perm_swap. rewrite (IH i a v H). apply perm_swap.
Qed.

Lemma nth_error_update {A : Type} (x : list A) :
  forall i j a v, nth_error x i = Some a ->
    nth_error (update j v x) i = Some (if Nat.eqb i j then v else a).
Proof.
  induction x as [|h x IH]; intros [|i] [|j] a v H; simpl in *;
    try discriminate; auto.
Qed.

Lemma exchange_perm {A : Type} (i j : nat) (x : list A) :
  Permutation x (exchange i j x).
Proof.
  unfold exchange.
  destruct (nth_error x i) as [a|] eqn:Hi; [|reflexivity].
  destruct (nth_error x j) as [b|] eqn:Hj; [|reflexivity].
  pose proof (update_perm x j b a Hj) as P1.
  pose proof (nth_error_update x i j a a Hi) as Hi'.
  assert (Hi'' : nth_error (update j a x) i = Some a)
    by (rewrite Hi'; destruct (Nat.eqb i j); reflexivity).
  pose proof (update_perm (update j a x) i a b Hi'') as P2.
  apply (Permutation_cons_inv (a := a)).
  rewrite P1, P2. reflexivity.
Qed.

Section RandbelowLaws.
Variable St : Type.
Variable randbelow : Z -> St -> Z * St.
Hypothesis randbelow_lt : forall n s, 0 < n -> 0 <= fst (randbelow n s) < n.

Lemma randbelow_randint_range a b s : a <= b ->
  exists v s', randbelow_randint St randbelow a b s = Some (v, s') /\ a <= v <= b.
Proof.
  intros Hab. unfold randbelow_randint.
  assert (Hw : 0 < b + 1 - a) by lia.
  apply Z.ltb_lt in Hw as Hw'. rewrite Hw'.
  pose proof (randbelow_lt _ s Hw) as Hr.
  destruct (randbelow (b + 1 - a) s) as [r s']. simpl in Hr.
  exists (a + r), s'. split; [reflexivity | lia].
Qed.

Lemma randbelow_randint_empty a b s :
  b < a -> randbelow_randint St randbelow a b s = None.
Proof.
  intros Hab. unfold randbelow_randint.
  assert (Hw : (0 <? b + 1 - a) = false) by (apply Z.ltb_ge; lia).
  now rewrite Hw.
Qed.

Lemma exchange_down_perm {A : Type} (i : nat) :
  forall (x : list A) s, Permutation x (fst (exchange_down St randbelow i x s)).
Proof.
  induction i as [|i IH]; intros x s; cbn [exchange_down]; [reflexivity|].
  destruct (randbelow (Z.of_nat (S i) + 1) s) as [j s'].
  eapply Permutation_trans; [apply exchange_perm | apply IH].
Qed.

Lemma randbelow_shuffle_perm (A : Type) (x : list A) s :
  Permutation x (fst (randbelow_shuffle St randbelow x s)).
Proof. apply exchange_down_perm. Qed.

Definition randbelow_source (seed_state : Z -> St) : RandomSource :=
  {| rstate := St;
     seed := seed_state;
     randint := randbelow_randint St randbelow;
     shuffle := fun A => randbelow_shuffle St randbelow;
     randint_range := randbelow_randint_range;
     randint_empty := randbelow_randint_empty;
     shuffle_perm := randbelow_shuffle_perm |}.
End RandbelowLaws.

Lemma counter_randbelow_lt n c : 0 < n -> 0 <= fst (counter_randbelow n c) < n.
Proof. intros Hn. simpl. apply Z.mod_pos_bound, Hn. Qed.

Definition counter_source : RandomSource :=
  randbelow_source nat counter_randbelow counter_randbelow_lt counter_seed.

Lemma stuck_randbelow_lt n s : 0 < n -> 0 <= fst (stuck_randbelow n s) < n.
Proof. intros Hn. simpl. lia. Qed.

Definition stuck_source : RandomSource :=
  randbelow_source unit stuck_randbelow stuck_randbelow_lt (fun _ => tt).

(** ** Text *)

Lemma occurs_app c (a b : string) :
  occurs c (a ++ b)%string = occurs c a || occurs c b.
Proof.
  induction a as [|x a IH]; simpl; [reflexivity|].
  rewrite IH. apply orb_assoc.
Qed.

Lemma split_cons_field c (a : string) :
  occurs c a = false ->
  forall rest, split c (a ++ String c rest)%string = a :: split c rest.
Proof.
  induction a as [|x a IH]; simpl; intros Ha rest.
  - now rewrite Ascii.eqb_refl.
  - apply orb_false_elim in Ha as [Hx Ha]. rewrite Hx.
    now rewrite (IH Ha rest).
Qed.

Lemma split_last_field c (a : string) :
  occurs c a = false -> split c a = [a].
Proof.
  induction a as [|x a IH]; simpl; intros Ha; [reflexivity|].
  apply orb_false_elim in Ha as [Hx Ha]. rewrite Hx.
  now rewrite (IH Ha).
Qed.

(** [sep.join(parts).split(sep)] gives the parts back when none of them
    contains the separator. *)
Lemma split_join c (parts : list string) :
  parts <> [] ->
  Forall (fun p => occurs c p = false) parts ->
  split c (join (String c EmptyString) parts) = parts.
Proof.
  unfold join. induction parts as [|p parts IH]; intros Hne Hall; [easy|].
  inversion Hall as [|? ? Hp Hps]; subst.
  destruct parts as [|q parts]; simpl.
  - now apply split_last_field.
  - rewrite (split_cons_field c p Hp). f_equal.
    apply IH; [discriminate | assumption].
Qed.

Lemma all_chars_uint d : all_chars digit_or_minus (NilEmpty.string_of_uint d) = true.
Proof. induction d; simpl; auto. Qed.

Lemma all_chars_str z : all_chars digit_or_minus (str z) = true.
Proof.
  unfold str, NilZero.string_of_int, NilZero.string_of_uint.
  destruct (Z.to_int z) as [d|d].
  - destruct d; try reflexivity; apply (all_chars_uint (_ _)).
  - simpl. destruct d; try reflexivity; apply (all_chars_uint (_ _)).
Qed.

Lemma all_chars_occurs P c s :
  P c = false -> all_chars P s = true -> occurs c s = false.
Proof.
  intros Hc. induction s as [|a s IH]; simpl; intros H; [reflexivity|].
  apply andb_prop in H as [Ha Hs]. rewrite (IH Hs), orb_false_r.
  destruct (Ascii.eqb_spec a c) as [->|]; congruence.
Qed.

Lemma str_no_space z : occurs space (str z) = false.
Proof. apply (all_chars_occurs digit_or_minus); [reflexivity | apply all_chars_str]. Qed.

Lemma str_no_newline z : occurs newline (str z) = false.
Proof. apply (all_chars_occurs digit_or_minus); [reflexivity | apply all_chars_str]. Qed.

Lemma join_no_newline (vs : list Z) : occurs newline (values_line vs) = false.
Proof.
  unfold values_line, join.
  induction vs as [|v vs IH]; [reflexivity|].
  destruct vs as [|w vs]; simpl in *; [apply str_no_newline|].
  rewrite occurs_app, str_no_newline. simpl. exact IH.
Qed.

Lemma header_no_newline m n ne b : occurs newline (header_line m n ne b) = false.
Proof.
  unfold header_line. rewrite !occurs_app, !str_no_newline. reflexivity.
Qed.

Lemma pair_no_newline q : occurs newline (pair_line q) = false.
Proof.
  unfold pair_line. rewrite !occurs_app, !str_no_newline. reflexivity.
Qed.

Lemma split_header m n ne b :
  split space (header_line m n ne b) = [str m; str n; str ne; str b].
Proof.
  unfold header_line.
  change " " with (String space EmptyString).
  repeat (simpl append; rewrite (split_cons_field space _ (str_no_space _))).
  now rewrite (split_last_field space _ (str_no_space _)).
Qed.

Lemma split_pair q : split space (pair_line q) = [str (fst q); str (snd q)].
Proof.
  unfold pair_line.
  change " " with (String space EmptyString).
  simpl append. rewrite (split_cons_field space _ (str_no_space _)).
  now rewrite (split_last_field space _ (str_no_space _)).
Qed.

Lemma split_values (vs : list Z) :
  vs <> [] -> split space (values_line vs) = map str vs.
Proof.
  intros Hne. unfold values_line.
  change " " with (String space EmptyString).
  apply split_join.
  - destruct vs; [easy | discriminate].
  - apply Forall_forall. intros p Hp. apply in_map_iff in Hp as (v & <- & _).
    apply str_no_space.
Qed.

(** Distinct integers have distinct numerals, distinct pairs distinct
    lines. *)
Lemma str_inj z z' : str z = str z' -> z = z'.
Proof.
  intros H. apply DecimalZ.to_int_inj.
  assert (R : forall x, NilZero.int_of_string (str x) = Some (Z.to_int x)).
  { intros x. unfold str. apply NilZero.isi; destruct x; simpl; try discriminate;
      intros [= E]; now apply DecimalPos.Unsigned.to_uint_nonnil in E. }
  pose proof (R z) as Rz. rewrite H, R in Rz. now injection Rz.
Qed.

Lemma pair_line_inj q q' : pair_line q = pair_line q' -> q = q'.
Proof.
  intros H. pose proof (split_pair q) as Hq. rewrite H, split_pair in Hq.
  injection Hq as Hp Hd. apply str_inj in Hp, Hd.
  destruct q, q'; simpl in *; congruence.
Qed.

(** The text splits back into the lines of [out]. *)
Lemma split_render I : split newline (render I) = out_lines I.
Proof.
  unfold render, nl. apply split_join; [discriminate|].
  unfold out_lines. repeat constructor.
  - apply header_no_newline.
  - apply join_no_newline.
  - apply join_no_newline.
  - apply Forall_forall. intros p Hp. apply in_map_iff in Hp as (q & <- & _).
    apply pair_no_newline.
Qed.

(** ** Ranges and the grid of all pairs *)

Lemma in_range m x : In x (range m) <-> 0 <= x < m.
Proof.
  unfold range. rewrite in_map_iff. split.
  - intros (k & <- & Hk). apply in_seq in Hk. lia.
  - intros Hx. exists (Z.to_nat x). split; [lia|]. apply in_seq. lia.
Qed.

Lemma length_range m : List.length (range m) = Z.to_nat m.
Proof. unfold range. now rewrite length_map, length_seq. Qed.

Lemma NoDup_range m : NoDup (range m).
Proof.
  unfold range. apply Injective_map_NoDup; [|apply seq_NoDup].
  intros x y. apply Nat2Z.inj.
Qed.

Lemma range_nil m : m <= 0 -> range m = [].
Proof. intros H. unfold range. now replace (Z.to_nat m) with O by lia. Qed.

Lemma in_all_pairs m n q :
  In q (GeradorDeInstancias.all_pairs m n) <-> in_grid m n q.
Proof.
  unfold GeradorDeInstancias.all_pairs, in_grid. rewrite in_flat_map. split.
  - intros (i & Hi & Hq). apply in_map_iff in Hq as (j & <- & Hj).
    apply in_range in Hi, Hj. simpl. lia.
  - intros [Hp Hd]. exists (fst q). split; [now apply in_range|].
    apply in_map_iff. exists (snd q). split; [now destruct q | now apply in_range].
Qed.

Lemma length_all_pairs m n :
  List.length (GeradorDeInstancias.all_pairs m n) = (Z.to_nat m * Z.to_nat n)%nat.
Proof.
  unfold GeradorDeInstancias.all_pairs.
  rewrite <- (length_range m).
  induction (range m) as [|i l IH]; simpl; [reflexivity|].
  now rewrite length_app, length_map, length_range, IH.
Qed.

Lemma NoDup_all_pairs m n : NoDup (GeradorDeInstancias.all_pairs m n).
Proof.
  unfold GeradorDeInstancias.all_pairs.
  pose proof (NoDup_range m) as Hm.
  induction (range m) as [|i l IH]; simpl; [constructor|].
  inversion Hm as [|? ? Hi Hl]; subst.
  apply NoDup_app.
  - apply Injective_map_NoDup; [|apply NoDup_range].
    intros x y E. now injection E.
  - now apply IH.
  - intros q Hq Hq'. apply in_map_iff in Hq as (j & <- & _).
    apply in_flat_map in Hq' as (i' & Hi' & Hq').
    apply in_map_iff in Hq' as (j' & E & _). injection E as -> _. contradiction.
Qed.

Lemma len_all_pairs m n : 0 <= m -> 0 <= n ->
  len (GeradorDeInstancias.all_pairs m n) = m * n.
Proof. intros Hm Hn. unfold len. rewrite length_all_pairs. lia. Qed.

(** A duplicate-free part of the grid that is not the whole grid misses one
    of its pairs. *)
Lemma grid_has_room m n (S : list (Z * Z)) :
  0 <= m -> 0 <= n -> NoDup S -> Forall (in_grid m n) S -> len S < m * n ->
  exists q, in_grid m n q /\ ~ In q S.
Proof.
  intros Hm Hn HS Hin Hlt.
  destruct (find (fun q => negb (mem q S)) (GeradorDeInstancias.all_pairs m n))
    as [q|] eqn:F.
  - apply find_some in F as [Hq Hq']. exists q. split; [now apply in_all_pairs|].
    unfold mem in Hq'. now destruct (in_dec pair_eq_dec q S).
  - exfalso.
    assert (Hincl : incl (GeradorDeInstancias.all_pairs m n) S).
    { intros q Hq. pose proof (find_none _ _ F q Hq) as Hq'. unfold mem in Hq'.
      now destruct (in_dec pair_eq_dec q S). }
    pose proof (NoDup_incl_length (NoDup_all_pairs m n) Hincl) as L.
    rewrite length_all_pairs in L. unfold len in Hlt. nia.
Qed.

(** ** Running computations *)

Section Runs.
Context {RS : RandomSource}.

Lemma bind_ok {A B} (c : M A) (k : A -> M B) s a t s' :
  c s = (Ok a, t, s') ->
  bind c k s = (let '(r, t', s'') := k a s' in (r, t ++ t', s'')).
Proof. intros H. unfold bind. now rewrite H. Qed.

Lemma bind_raise {A B} (c : M A) (k : A -> M B) s e t s' :
  c s = (Raise e, t, s') -> bind c k s = (Raise e, t, s').
Proof. intros H. unfold bind. now rewrite H. Qed.

Lemma bind_quiet {A B} (c : M A) (k : A -> M B) s a s' :
  c s = (Ok a, [], s') -> bind c k s = k a s'.
Proof.
  intros H. rewrite (bind_ok _ _ _ _ _ _ H).
  now destruct (k a s') as [[r t] s''].
Qed.

Lemma randint_ok a b s : a <= b ->
  exists v s', random_randint a b s = (Ok v, [], s') /\ a <= v <= b.
Proof.
  intros Hab. destruct (randint_range a b s Hab) as (v & s' & E & Hv).
  exists v, s'. unfold random_randint. now rewrite E.
Qed.

Lemma randint_raises a b s : b < a ->
  random_randint a b s = (Raise (ValueError_empty_range a b), [], s).
Proof.
  intros Hab. unfold random_randint. now rewrite (randint_empty a b s Hab).
Qed.

(** [[random.randint(a, b) for _ in xs]] with a non-empty range: one
    value of the range for each element of [xs]. *)
Lemma for_list_randint a b : a <= b ->
  forall (xs : list Z) s, exists vs s',
    for_list xs (fun _ => random_randint a b) s = (Ok vs, [], s')
    /\ List.length vs = List.length xs
    /\ Forall (fun v => a <= v <= b) vs.
Proof.
  intros Hab. induction xs as [|x xs IH]; intros s; simpl.
  - exists [], s. repeat split. constructor.
  - destruct (randint_ok a b s Hab) as (v & s1 & E1 & Hv).
    destruct (IH s1) as (vs & s2 & E2 & L & F).
    exists (v :: vs), s2. rewrite (bind_quiet _ _ _ _ _ E1).
    rewrite (bind_quiet _ _ _ _ _ E2). simpl.
    repeat split; [now rewrite L | now constructor].
Qed.

Lemma for_list_randint_raises a b : b < a ->
  forall (x : Z) xs s,
    for_list (x :: xs) (fun _ => random_randint a b) s
    = (Raise (ValueError_empty_range a b), [], s).
Proof.
  intros Hab x xs s. simpl.
  now rewrite (bind_raise _ _ _ _ _ _ (randint_raises a b s Hab)).
Qed.

Lemma shuffle_ok {A} (l : list A) s :
  exists l' s', random_shuffle l s = (Ok l', [], s') /\ Permutation l l'.
Proof.
  pose proof (shuffle_perm A l s) as P. unfold random_shuffle.
  destruct (shuffle l s) as [l' s']. now exists l', s'.
Qed.
End Runs.

(** ** The pair set *)

Lemma mem_true x S : mem x S = true <-> In x S.
Proof. unfold mem. destruct (in_dec pair_eq_dec x S); split; easy. Qed.

Lemma mem_false x S : mem x S = false <-> ~ In x S.
Proof. unfold mem. destruct (in_dec pair_eq_dec x S); split; easy. Qed.

Lemma set_add_in x S y : In y (set_add x S) <-> y = x \/ In y S.
Proof.
  unfold set_add. destruct (mem x S) eqn:E.
  - apply mem_true in E. split; [auto | intros [->|]; auto].
  - rewrite in_app_iff. simpl. split; [intros [|[<-|[]]]; auto | intros [->|]; auto].
Qed.

Lemma set_add_NoDup x S : NoDup S -> NoDup (set_add x S).
Proof.
  intros H. unfold set_add. destruct (mem x S) eqn:E; [assumption|].
  apply mem_false in E. apply NoDup_app; [assumption | repeat constructor; easy |].
  intros y Hy [<-|[]]. contradiction.
Qed.

Lemma set_add_len x S :
  len (set_add x S) = if mem x S then len S else len S + 1.
Proof.
  unfold set_add, len. destruct (mem x S); [reflexivity|].
  rewrite length_app. simpl. lia.
Qed.

Lemma set_add_fresh x S : ~ In x S -> set_add x S = S ++ [x].
Proof. intros H. unfold set_add. apply mem_false in H. now rewrite H. Qed.

(** ** [instance_generator.py]: the coverage step and the rejection loop *)

Section Steps.
Context {RS : RandomSource}.
Import InstanceGenerator.

Lemma draw_pair_in_grid m n s q s' :
  draw_pair m n s = Some (q, s') -> 1 <= m -> 1 <= n -> in_grid m n q.
Proof.
  unfold draw_pair. intros H Hm Hn.
  destruct (randint_range 0 (m - 1) s ltac:(lia)) as (p & s1 & E1 & Hp).
  rewrite E1 in H.
  destruct (randint_range 0 (n - 1) s1 ltac:(lia)) as (d & s2 & E2 & Hd).
  rewrite E2 in H. injection H as <- <-. unfold in_grid. simpl. lia.
Qed.

Lemma cover_from n : 1 <= n ->
  forall (xs : list Z) acc s,
    (forall x, In x xs -> ~ In x (map fst acc)) -> NoDup xs ->
    exists S s',
      for_fold xs
        (fun pairs_set i =>
           j <- random_randint 0 (n - 1) ;; ret (set_add (i, j) pairs_set))
        acc s = (Ok S, [], s')
      /\ map fst S = map fst acc ++ xs
      /\ (Forall (fun q => 0 <= snd q < n) acc ->
          Forall (fun q => 0 <= snd q < n) S).
Proof.
  intros Hn. induction xs as [|i xs IH]; intros acc s Hfresh Hnd; simpl.
  - exists acc, s. rewrite app_nil_r. auto.
  - destruct (randint_ok 0 (n - 1) s ltac:(lia)) as (j & s1 & E1 & Hj).
    inversion Hnd as [|? ? Hi Hxs]; subst.
    assert (Hnew : ~ In (i, j) acc).
    { intros Hin. apply (Hfresh i (or_introl eq_refl)).
      change i with (fst (i, j)). now apply in_map. }
    destruct (IH (acc ++ [(i, j)]) s1) as (S & s2 & E2 & Hfst & Hsnd); [|assumption|].
    { intros x Hx. rewrite map_app, in_app_iff. simpl.
      intros [Hin|[<-|[]]]; [|contradiction].
      exact (Hfresh x (or_intror Hx) Hin). }
    exists S, s2. split; [|split].
    + assert (E : (j <- random_randint 0 (n - 1) ;; ret (set_add (i, j) acc)) s
                  = (Ok (acc ++ [(i, j)]), [], s1)).
      { rewrite (bind_quiet _ _ _ _ _ E1). unfold ret.
        now rewrite (set_add_fresh _ _ Hnew). }
      rewrite (bind_quiet _ _ _ _ _ E). exact E2.
    + rewrite Hfst, map_app, <- app_assoc. reflexivity.
    + intros Hacc. apply Hsnd. apply Forall_app. split; [assumption|].
      repeat constructor; simpl; lia.
Qed.

(** Step 1 yields one pair for each package, in package order. *)
Lemma cover_ok m n s : 1 <= n ->
  exists S s',
    cover m n s = (Ok S, [], s')
    /\ map fst S = range m
    /\ NoDup S /\ Forall (in_grid m n) S /\ List.length S = Z.to_nat m.
Proof.
  intros Hn.
  destruct (cover_from n Hn (range m) [] s ltac:(easy) (NoDup_range m))
    as (S & s' & E & Hfst & Hsnd).
  simpl in Hfst. exists S, s'. split; [exact E|]. split; [exact Hfst|].
  split; [|split].
  - apply (NoDup_map_inv fst). rewrite Hfst. apply NoDup_range.
  - specialize (Hsnd (Forall_nil _)). rewrite Forall_forall in Hsnd |- *.
    intros q Hq. split; [|now apply Hsnd].
    apply in_range. rewrite <- Hfst. now apply in_map.
  - rewrite <- (length_map fst), Hfst. apply length_range.
Qed.

Lemma fill_done fuel m n ne S : ne <= len S -> fill fuel m n ne S = ret S.
Proof.
  intros H. apply Z.ltb_ge in H. destruct fuel; simpl; now rewrite H.
Qed.

Lemma fill_draw fuel m n ne S s q s' :
  len S < ne -> draw_pair m n s = Some (q, s') ->
  fill (Datatypes.S fuel) m n ne S s = fill fuel m n ne (set_add q S) s'.
Proof.
  intros Hlt Hd. apply Z.ltb_lt in Hlt. simpl. rewrite Hlt.
  unfold draw_pair in Hd.
  destruct (randint 0 (m - 1) s) as [[p s1]|] eqn:E1; [|discriminate].
  destruct (randint 0 (n - 1) s1) as [[d s2]|] eqn:E2; [|discriminate].
  injection Hd as <- <-.
  assert (R1 : random_randint 0 (m - 1) s = (Ok p, [], s1))
    by (unfold random_randint; now rewrite E1).
  assert (R2 : random_randint 0 (n - 1) s1 = (Ok d, [], s2))
    by (unfold random_randint; now rewrite E2).
  rewrite (bind_quiet _ _ _ _ _ R1). now rewrite (bind_quiet _ _ _ _ _ R2).
Qed.

(** With a fair source the rejection loop ends, and ends with exactly
    [ne] pairs of the grid. *)
Lemma fill_total m n ne :
  1 <= m -> 1 <= n -> ne <= m * n -> fair m n ->
  forall k S s,
    Z.to_nat (ne - len S) = k -> NoDup S -> Forall (in_grid m n) S ->
    exists fuel S' s',
      (forall fuel', (fuel <= fuel')%nat ->
         fill fuel' m n ne S s = (Ok S', [], s'))
      /\ NoDup S' /\ Forall (in_grid m n) S' /\ incl S S'
      /\ (len S <= ne -> len S' = ne).
Proof.
  intros Hm Hn Hne Hfair.
  induction k as [|k IH]; intros S s Hk HS Hgrid.
  - exists O, S, s. split; [|repeat split; auto using incl_refl; lia].
    intros fuel' _. rewrite fill_done by lia. reflexivity.
  - assert (Hlt : len S < ne) by lia.
    destruct (grid_has_room m n S ltac:(lia) ltac:(lia) HS Hgrid ltac:(lia))
      as (q & Hq & Hfresh).
    destruct q as [p d]. destruct Hq as [Hp Hd]. simpl in Hp, Hd.
    pose proof (Hfair s p d Hp Hd) as Hev.
    induction Hev as [s s1 Hdraw | s q' s1 Hdraw Hev IHev].
    + destruct (IH (set_add (p, d) S) s1) as (fuel & S' & s' & Hrun & H1 & H2 & H3 & H4).
      * rewrite set_add_len.
        apply mem_false in Hfresh as ->. lia.
      * now apply set_add_NoDup.
      * rewrite (set_add_fresh _ _ Hfresh). apply Forall_app. split; [assumption|].
        constructor; [split; simpl; lia | constructor].
      * exists (Datatypes.S fuel), S', s'. split; [|repeat split; auto].
        -- intros [|fuel'] Hle; [lia|].
           rewrite (fill_draw _ _ _ _ _ _ _ _ Hlt Hdraw). apply Hrun. lia.
        -- intros x Hx. apply H3. apply set_add_in. now right.
        -- intros _. apply H4. rewrite set_add_len.
           apply mem_false in Hfresh as ->. lia.
    + destruct (mem q' S) eqn:Hq'.
      * destruct IHev as (fuel & S' & s' & Hrun & H1 & H2 & H3 & H4).
        exists (Datatypes.S fuel), S', s'. split; [|repeat split; auto].
        intros [|fuel'] Hle; [lia|].
        rewrite (fill_draw _ _ _ _ _ _ _ _ Hlt Hdraw).
        unfold set_add. rewrite Hq'. apply Hrun. lia.
      * destruct (IH (set_add q' S) s1) as (fuel & S' & s' & Hrun & H1 & H2 & H3 & H4).
        -- rewrite set_add_len, Hq'. lia.
        -- now apply set_add_NoDup.
        -- apply mem_false in Hq'. rewrite (set_add_fresh _ _ Hq').
           apply Forall_app. split; [assumption|].
           constructor; [|constructor].
           exact (draw_pair_in_grid _ _ _ _ _ Hdraw Hm Hn).
        -- exists (Datatypes.S fuel), S', s'. split; [|repeat split; auto].
           ++ intros [|fuel'] Hle; [lia|].
              rewrite (fill_draw _ _ _ _ _ _ _ _ Hlt Hdraw). apply Hrun. lia.
           ++ intros x Hx. apply H3. apply set_add_in. now right.
           ++ intros _. apply H4. rewrite set_add_len, Hq'. lia.
Qed.
End Steps.

(** ** The counter source is fair *)

Lemma counter_stream_fst t : counter_stream (6 * t) = fst (Cantor.of_nat t).
Proof.
  unfold counter_stream.
  replace ((6 * t) / 6)%nat with t by (apply (Nat.div_unique _ 6 t 0); lia).
  replace ((6 * t) mod 6)%nat with O by (apply (Nat.mod_unique _ 6 t 0); lia).
  now destruct (Cantor.of_nat t).
Qed.

Lemma counter_stream_snd t : counter_stream (6 * t + 1) = snd (Cantor.of_nat t).
Proof.
  unfold counter_stream.
  replace ((6 * t + 1) / 6)%nat with t by (apply (Nat.div_unique _ 6 t 1); lia).
  replace ((6 * t + 1) mod 6)%nat with 1%nat by (apply (Nat.mod_unique _ 6 t 1); lia).
  now destruct (Cantor.of_nat t).
Qed.

Lemma counter_stream_fst' t : counter_stream (6 * t + 2) = fst (Cantor.of_nat t).
Proof.
  unfold counter_stream.
  replace ((6 * t + 2) / 6)%nat with t by (apply (Nat.div_unique _ 6 t 2); lia).
  replace ((6 * t + 2) mod 6)%nat with 2%nat by (apply (Nat.mod_unique _ 6 t 2); lia).
  now destruct (Cantor.of_nat t).
Qed.

Lemma counter_draw m n c : 1 <= m -> 1 <= n ->
  @draw_pair counter_source m n c
  = Some ((Z.of_nat (counter_stream c) mod m,
           Z.of_nat (counter_stream (S c)) mod n), S (S c)).
Proof.
  intros Hm Hn. unfold draw_pair. simpl. unfold randbelow_randint.
  replace (0 <? m - 1 + 1 - 0) with true by (symmetry; apply Z.ltb_lt; lia).
  replace (0 <? n - 1 + 1 - 0) with true by (symmetry; apply Z.ltb_lt; lia).
  unfold counter_randbelow.
  now replace (m - 1 + 1 - 0) with m by lia; replace (n - 1 + 1 - 0) with n by lia.
Qed.

Lemma counter_reaches m n q : 1 <= m -> 1 <= n ->
  forall k c s',
    @draw_pair counter_source m n (c + 2 * k)%nat = Some (q, s') ->
    @eventually_draws counter_source m n q c.
Proof.
  intros Hm Hn. induction k as [|k IH]; intros c s' H.
  - replace (c + 2 * 0)%nat with c in H by lia. exact (@draws_now counter_source m n q c s' H).
  - eapply (@draws_later counter_source); [apply (counter_draw m n c Hm Hn)|].
    apply (IH (S (S c)) s'). now replace (S (S c) + 2 * k)%nat with (c + 2 * S k)%nat by lia.
Qed.

Lemma counter_fair m n : 1 <= m -> 1 <= n -> @fair counter_source m n.
Proof.
  intros Hm Hn c p d Hp Hd.
  destruct (Nat.Even_or_Odd c) as [[h Hc]|[h Hc]].
  - (* an even state: wait for draw [6 * t] *)
    set (t := Cantor.to_nat ((Z.to_nat p + Z.to_nat m * c)%nat, Z.to_nat d)).
    assert (Ht : (c <= t)%nat).
    { pose proof (Cantor.to_nat_non_decreasing (Z.to_nat p + Z.to_nat m * c) (Z.to_nat d)).
      fold t in H. nia. }
    apply (counter_reaches m n (p, d) Hm Hn (3 * t - h)%nat c (S (S (6 * t)))).
    replace (c + 2 * (3 * t - h))%nat with (6 * t)%nat by lia.
    rewrite (counter_draw m n _ Hm Hn).
    replace (S (6 * t)) with (6 * t + 1)%nat by lia.
    rewrite counter_stream_fst, counter_stream_snd. unfold t.
    rewrite Cantor.cancel_of_to. simpl fst. simpl snd.
    rewrite Nat2Z.inj_add, Nat2Z.inj_mul, !Z2Nat.id by lia.
    rewrite (Z.mul_comm m), Z_mod_plus_full, !Z.mod_small by lia.
    first [reflexivity | (do 2 f_equal; lia)].
  - (* an odd state: wait for draw [6 * t + 1] *)
    set (t := Cantor.to_nat (Z.to_nat d, (Z.to_nat p + Z.to_nat m * c)%nat)).
    assert (Ht : (c <= t)%nat).
    { pose proof (Cantor.to_nat_non_decreasing (Z.to_nat d) (Z.to_nat p + Z.to_nat m * c)).
      fold t in H. nia. }
    apply (counter_reaches m n (p, d) Hm Hn (3 * t - h)%nat c (S (S (6 * t + 1)))).
    replace (c + 2 * (3 * t - h))%nat with (6 * t + 1)%nat by lia.
    rewrite (counter_draw m n _ Hm Hn).
    replace (S (6 * t + 1)) with (6 * t + 2)%nat by lia.
    rewrite counter_stream_fst', counter_stream_snd. unfold t.
    rewrite Cantor.cancel_of_to. simpl fst. simpl snd.
    rewrite Nat2Z.inj_add, Nat2Z.inj_mul, !Z2Nat.id by lia.
    rewrite (Z.mul_comm m), Z_mod_plus_full, !Z.mod_small by lia.
    first [reflexivity | (do 2 f_equal; lia)].
Qed.

(** ** [instance_generator.py]: the whole run *)

Lemma adjusted_bounds m n ne : 1 <= m -> 1 <= n -> m <= adjusted m n ne <= m * n.
Proof.
  intros Hm Hn. unfold adjusted.
  destruct (Z.ltb_spec ne m); [nia|].
  destruct (Z.gtb_spec ne (m * n)); nia.
Qed.

Lemma adjusted_valid m n ne : m <= ne <= m * n -> adjusted m n ne = ne.
Proof.
  intros H. unfold adjusted.
  destruct (Z.ltb_spec ne m); [lia|].
  destruct (Z.gtb_spec ne (m * n)); lia.
Qed.

Lemma notices_valid m n ne : m <= ne <= m * n -> notices m n ne = [].
Proof.
  intros H. unfold notices.
  destruct (Z.ltb_spec ne m); [lia|].
  destruct (Z.gtb_spec ne (m * n)); [lia | reflexivity].
Qed.

Section WholeRun.
Context {RS : RandomSource} {SI : SetIteration}.
Import InstanceGenerator.

Lemma seed_step (sd : option Z) s :
  (match sd with Some x => random_seed x | None => ret tt end) s
  = (Ok tt, [], seeded sd s).
Proof. now destruct sd. Qed.

Lemma adjust_run m n ne s : adjust m n ne s = (Ok (adjusted m n ne), notices m n ne, s).
Proof.
  unfold adjust, adjusted, notices.
  destruct (ne <? m); [reflexivity|]. now destruct (ne >? m * n).
Qed.

(** Up to the rejection loop a run with non-empty sampling ranges cannot
    fail: it has drawn [m] benefits, [n] weights and one pair for each
    package. *)
Lemma build_prefix m n ne b benefit_max dep_max sd s :
  1 <= n -> 10 <= benefit_max -> 5 <= dep_max ->
  exists bs ds S s2,
    List.length bs = Z.to_nat m /\ Forall (fun v => 10 <= v <= benefit_max) bs
    /\ List.length ds = Z.to_nat n /\ Forall (fun v => 5 <= v <= dep_max) ds
    /\ map fst S = range m /\ NoDup S /\ Forall (in_grid m n) S
    /\ List.length S = Z.to_nat m
    /\ forall fuel,
         build fuel m n ne b benefit_max dep_max sd s
         = (let '(r, t, s') := finish fuel m n (adjusted m n ne) b bs ds S s2 in
            (r, notices m n ne ++ t, s')).
Proof.
  intros Hn Hb Hd.
  destruct (for_list_randint 10 benefit_max Hb (range m) (seeded sd s))
    as (bs & s1 & Eb & Lb & Fb).
  destruct (for_list_randint 5 dep_max Hd (range n) s1)
    as (ds & s2 & Ed & Ld & Fd).
  destruct (cover_ok m n s2 Hn) as (S & s3 & Ec & Hfst & HS & Hg & LS).
  exists bs, ds, S, s3. rewrite length_range in Lb, Ld.
  repeat (split; [assumption|]).
  intros fuel. unfold build.
  rewrite (bind_quiet _ _ _ _ _ (seed_step sd s)).
  rewrite (bind_ok _ _ _ _ _ _ (adjust_run m n ne (seeded sd s))).
  rewrite (bind_quiet _ _ _ _ _ Eb).
  rewrite (bind_quiet _ _ _ _ _ Ed).
  rewrite (bind_quiet _ _ _ _ _ Ec).
  reflexivity.
Qed.

Lemma finish_run fuel m n ne b bs ds S s S' s1 :
  fill fuel m n ne S s = (Ok S', [], s1) ->
  exists ps s',
    finish fuel m n ne b bs ds S s
    = (Ok {| inst_m := m; inst_n := n; inst_ne := ne; inst_b := b;
             benefits := bs; deps := ds; pairs := ps |}, [], s')
    /\ Permutation S' ps.
Proof.
  intros Hf.
  destruct (shuffle_ok (iteration_order S') s1) as (ps & s' & Es & P).
  exists ps, s'. split.
  - unfold finish. rewrite (bind_quiet _ _ _ _ _ Hf).
    now rewrite (bind_quiet _ _ _ _ _ Es).
  - eapply Permutation_trans; [apply iteration_order_perm | exact P].
Qed.

(** The run as a whole, under a fair source: the loop needs at most
    [fuel] iterations, and the instance [I] is what [build] returns. *)
Lemma build_total m n ne b benefit_max dep_max sd s :
  1 <= m -> 1 <= n -> 10 <= benefit_max -> 5 <= dep_max -> fair m n ->
  exists fuel I s',
    (forall fuel', (fuel <= fuel')%nat ->
       build fuel' m n ne b benefit_max dep_max sd s
       = (Ok I, notices m n ne, s'))
    /\ inst_m I = m /\ inst_n I = n /\ inst_ne I = adjusted m n ne /\ inst_b I = b
    /\ List.length (benefits I) = Z.to_nat m
    /\ Forall (fun v => 10 <= v <= benefit_max) (benefits I)
    /\ List.length (deps I) = Z.to_nat n
    /\ Forall (fun v => 5 <= v <= dep_max) (deps I)
    /\ NoDup (pairs I) /\ Forall (in_grid m n) (pairs I)
    /\ len (pairs I) = adjusted m n ne
    /\ incl (range m) (map fst (pairs I)).
Proof.
  intros Hm Hn Hb Hd Hfair.
  destruct (build_prefix m n ne b benefit_max dep_max sd s Hn Hb Hd)
    as (bs & ds & S & s2 & Lb & Fb & Ld & Fd & Hfst & HS & Hg & LS & Hrun).
  pose proof (adjusted_bounds m n ne Hm Hn) as Hadj.
  destruct (fill_total m n (adjusted m n ne) Hm Hn ltac:(lia) Hfair _ S s2
              eq_refl HS Hg)
    as (fuel & S' & s3 & Hfill & HS' & Hg' & Hincl & Hlen).
  destruct (finish_run fuel m n (adjusted m n ne) b bs ds S s2 S' s3
              (Hfill fuel (Nat.le_refl _)))
    as (ps & s' & Efin & P).
  exists fuel,
    {| inst_m := m; inst_n := n; inst_ne := adjusted m n ne; inst_b := b;
       benefits := bs; deps := ds; pairs := ps |}, s'.
  split; [|simpl; repeat (split; [try eassumption; try reflexivity|])].
  - intros fuel' Hle. rewrite Hrun.
    unfold finish in Efin |- *.
    rewrite (bind_quiet _ _ _ _ _ (Hfill fuel' Hle)).
    rewrite (bind_quiet _ _ _ _ _ (Hfill fuel (Nat.le_refl _))) in Efin.
    rewrite Efin. now rewrite app_nil_r.
  - eapply Permutation_NoDup; eassumption.
  - eapply Permutation_Forall; eassumption.
  - unfold len in *. rewrite <- (Permutation_length P). apply Hlen. lia.
  - intros i Hi. rewrite <- Hfst in Hi.
    apply in_map_iff in Hi as (q & <- & Hq). apply in_map.
    apply (Permutation_in _ P). now apply Hincl.
Qed.
End WholeRun.

(** ** What a run prints *)

Section Quiet.
Context {RS : RandomSource}.

Lemma events_bind {A B} (c : M A) (k : A -> M B) s :
  (forall a, quiet (k a)) -> events (bind c k s) = events (c s).
Proof.
  intros Hk. unfold bind, events.
  destruct (c s) as [[[a|e|] t] s']; simpl; try reflexivity.
  pose proof (Hk a s') as Ha. unfold events in Ha.
  destruct (k a s') as [[r t'] s'']. simpl in *. subst. apply app_nil_r.
Qed.

Lemma events_bind_ok {A B} (c : M A) (k : A -> M B) s a t s' :
  c s = (Ok a, t, s') -> events (bind c k s) = t ++ events (k a s').
Proof.
  intros H. rewrite (bind_ok _ _ _ _ _ _ H).
  now destruct (k a s') as [[r t'] s''].
Qed.

Lemma quiet_bind {A B} (c : M A) (k : A -> M B) :
  quiet c -> (forall a, quiet (k a)) -> quiet (bind c k).
Proof. intros Hc Hk s. rewrite events_bind by assumption. apply Hc. Qed.

Lemma quiet_ret {A} (a : A) : quiet (ret a).
Proof. now intros s. Qed.

Lemma quiet_raise {A} e : quiet (@raise RS A e).
Proof. now intros s. Qed.

Lemma quiet_seed sd : quiet (random_seed sd).
Proof. now intros s. Qed.

Lemma quiet_randint a b : quiet (random_randint a b).
Proof.
  intros s. unfold random_randint. now destruct (randint a b s) as [[v s']|].
Qed.

Lemma quiet_shuffle {A} (l : list A) : quiet (random_shuffle l).
Proof. intros s. unfold random_shuffle. now destruct (shuffle l s). Qed.

Lemma quiet_for_list {A B} (xs : list A) (f : A -> M B) :
  (forall x, quiet (f x)) -> quiet (for_list xs f).
Proof.
  intros Hf. induction xs as [|x xs IH]; simpl; [apply quiet_ret|].
  apply quiet_bind; [apply Hf|]. intros y.
  apply quiet_bind; [apply IH|]. intros ys. apply quiet_ret.
Qed.

Lemma quiet_for_fold {A S} (xs : list A) (f : S -> A -> M S) :
  (forall acc x, quiet (f acc x)) -> forall acc, quiet (for_fold xs f acc).
Proof.
  intros Hf. induction xs as [|x xs IH]; intros acc; simpl; [apply quiet_ret|].
  apply quiet_bind; [apply Hf | apply IH].
Qed.

Lemma quiet_cover m n : quiet (InstanceGenerator.cover m n).
Proof.
  apply quiet_for_fold. intros acc i.
  apply quiet_bind; [apply quiet_randint | intros j; apply quiet_ret].
Qed.

Lemma quiet_fill fuel m n ne : forall S, quiet (InstanceGenerator.fill fuel m n ne S).
Proof.
  induction fuel as [|fuel IH]; intros S; simpl;
    destruct (len S <? ne); try apply quiet_ret; [now intros s|].
  apply quiet_bind; [apply quiet_randint | intros p].
  apply quiet_bind; [apply quiet_randint | intros d]. apply IH.
Qed.

Lemma quiet_seed_step (sd : option Z) :
  quiet (match sd with Some x => random_seed x | None => ret tt end).
Proof. destruct sd; [apply quiet_seed | apply quiet_ret]. Qed.
End Quiet.

(** Whatever its arguments and outcome, [gen_instance] of
    [instance_generator.py] prints the validation notice and nothing else. *)
Lemma events_clamp_variant {RS : RandomSource} {SI : SetIteration}
      fuel m n ne b benefit_max dep_max sd s :
  events (InstanceGenerator.gen_instance fuel m n ne b benefit_max dep_max sd s)
  = notices m n ne.
Proof.
  unfold InstanceGenerator.gen_instance.
  rewrite events_bind by (intros I; apply quiet_ret).
  unfold InstanceGenerator.build.
  rewrite (bind_quiet _ _ _ _ _ (seed_step sd s)).
  rewrite (events_bind_ok _ _ _ _ _ _ (adjust_run m n ne (seeded sd s))).
  rewrite <- (app_nil_r (notices m n ne)) at 2. f_equal.
  rewrite events_bind; [apply quiet_for_list; intros; apply quiet_randint|].
  intros bs. apply quiet_bind; [apply quiet_for_list; intros; apply quiet_randint|].
  intros ds. apply quiet_bind; [apply quiet_cover|].
  intros S. apply quiet_bind; [apply quiet_fill|].
  intros S'. apply quiet_bind; [apply quiet_shuffle | intros ps; apply quiet_ret].
Qed.

(** [gen_instance] of [gerador_de_instâncias.py] prints nothing. *)
Lemma events_raise_variant {RS : RandomSource}
      m n ne b benefit_max dep_max sd s :
  events (GeradorDeInstancias.gen_instance m n ne b benefit_max dep_max sd s) = [].
Proof.
  revert s. change (quiet (GeradorDeInstancias.gen_instance m n ne b benefit_max dep_max sd)).
  unfold GeradorDeInstancias.gen_instance, GeradorDeInstancias.build.
  apply quiet_bind; [|intros I; apply quiet_ret].
  apply quiet_bind; [apply quiet_seed_step | intros _].
  apply quiet_bind; [apply quiet_for_list; intros; apply quiet_randint | intros bs].
  apply quiet_bind; [apply quiet_for_list; intros; apply quiet_randint | intros ds].
  apply quiet_bind; [apply quiet_shuffle | intros ap].
  apply quiet_bind; [|intros _; apply quiet_ret].
  destruct (ne >? len ap); [apply quiet_raise | apply quiet_ret].
Qed.

(** ** [gerador_de_instâncias.py]: the whole run *)

Lemma firstn_incl {A : Type} k (l : list A) : incl (firstn k l) l.
Proof.
  intros x Hx. rewrite <- (firstn_skipn k l). apply in_or_app. now left.
Qed.

Lemma firstn_NoDup {A : Type} k (l : list A) : NoDup l -> NoDup (firstn k l).
Proof.
  intros H. rewrite <- (firstn_skipn k l) in H. exact (NoDup_app_remove_r _ _ H).
Qed.

Lemma slice_to_len {A : Type} (l : list A) k :
  0 <= k <= len l -> len (slice_to l k) = k.
Proof.
  intros H. unfold slice_to, len in *.
  replace (k <? 0) with false by (symmetry; apply Z.ltb_ge; lia).
  rewrite firstn_length_le by lia. lia.
Qed.

Lemma slice_to_incl {A : Type} (l : list A) k : incl (slice_to l k) l.
Proof. unfold slice_to. destruct (k <? 0); apply firstn_incl. Qed.

Lemma slice_to_NoDup {A : Type} (l : list A) k : NoDup l -> NoDup (slice_to l k).
Proof. unfold slice_to. destruct (k <? 0); apply firstn_NoDup. Qed.

Section RaiseVariant.
Context {RS : RandomSource}.
Import GeradorDeInstancias.

(** With non-empty sampling ranges, a run draws the values, shuffles the
    grid, and then either raises on [ne > len(all_pairs)] or returns the
    first [ne] pairs. *)
Lemma enumerate_run m n ne b benefit_max dep_max sd s :
  10 <= benefit_max -> 5 <= dep_max ->
  exists bs ds ap s',
    List.length bs = Z.to_nat m /\ Forall (fun v => 10 <= v <= benefit_max) bs
    /\ List.length ds = Z.to_nat n /\ Forall (fun v => 5 <= v <= dep_max) ds
    /\ Permutation (all_pairs m n) ap
    /\ build m n ne b benefit_max dep_max sd s
       = if ne >? len ap
         then (Raise (ValueError "ne cannot exceed m*n"), [], s')
         else (Ok {| inst_m := m; inst_n := n; inst_ne := ne; inst_b := b;
                     benefits := bs; deps := ds; pairs := slice_to ap ne |},
               [], s').
Proof.
  intros Hb Hd.
  destruct (for_list_randint 10 benefit_max Hb (range m) (seeded sd s))
    as (bs & s1 & Eb & Lb & Fb).
  destruct (for_list_randint 5 dep_max Hd (range n) s1)
    as (ds & s2 & Ed & Ld & Fd).
  destruct (shuffle_ok (all_pairs m n) s2) as (ap & s3 & Es & P).
  exists bs, ds, ap, s3. rewrite length_range in Lb, Ld.
  repeat (split; [assumption|]).
  unfold build.
  rewrite (bind_quiet _ _ _ _ _ (seed_step sd s)).
  rewrite (bind_quiet _ _ _ _ _ Eb).
  rewrite (bind_quiet _ _ _ _ _ Ed).
  rewrite (bind_quiet _ _ _ _ _ Es).
  now destruct (ne >? len ap).
Qed.

(** A request within the grid is served with exactly [ne] distinct pairs
    of the grid. *)
Lemma enumerate_ok m n ne b benefit_max dep_max sd s :
  0 <= m -> 0 <= n -> 0 <= ne <= m * n -> 10 <= benefit_max -> 5 <= dep_max ->
  exists I s',
    build m n ne b benefit_max dep_max sd s = (Ok I, [], s')
    /\ inst_m I = m /\ inst_n I = n /\ inst_ne I = ne /\ inst_b I = b
    /\ List.length (benefits I) = Z.to_nat m
    /\ Forall (fun v => 10 <= v <= benefit_max) (benefits I)
    /\ List.length (deps I) = Z.to_nat n
    /\ Forall (fun v => 5 <= v <= dep_max) (deps I)
    /\ NoDup (pairs I) /\ Forall (in_grid m n) (pairs I)
    /\ len (pairs I) = ne.
Proof.
  intros Hm Hn Hne Hb Hd.
  destruct (enumerate_run m n ne b benefit_max dep_max sd s Hb Hd)
    as (bs & ds & ap & s' & Lb & Fb & Ld & Fd & P & E).
  assert (Hlen : len ap = m * n).
  { unfold len. rewrite <- (Permutation_length P). now apply len_all_pairs. }
  replace (ne >? len ap) with false in E
    by (symmetry; rewrite Z.gtb_ltb; apply Z.ltb_ge; lia).
  eexists _, s'. split; [exact E|]. simpl.
  repeat (split; [assumption || reflexivity|]).
  split; [|split].
  - apply slice_to_NoDup. apply (Permutation_NoDup P), NoDup_all_pairs.
  - apply Forall_forall. intros q Hq. apply in_all_pairs.
    apply (Permutation_in _ (Permutation_sym P)). now apply slice_to_incl in Hq.
  - apply slice_to_len. lia.
Qed.

(** A request beyond the grid is refused. *)
Lemma enumerate_refuses m n ne b benefit_max dep_max sd s :
  0 <= m -> 0 <= n -> ne > m * n -> 10 <= benefit_max -> 5 <= dep_max ->
  exists s',
    build m n ne b benefit_max dep_max sd s
    = (Raise (ValueError "ne cannot exceed m*n"), [], s').
Proof.
  intros Hm Hn Hne Hb Hd.
  destruct (enumerate_run m n ne b benefit_max dep_max sd s Hb Hd)
    as (bs & ds & ap & s' & _ & _ & _ & _ & P & E).
  assert (Hlen : len ap = m * n).
  { unfold len. rewrite <- (Permutation_length P). now apply len_all_pairs. }
  replace (ne >? len ap) with true in E
    by (symmetry; rewrite Z.gtb_ltb; apply Z.ltb_lt; lia).
  now exists s'.
Qed.
End RaiseVariant.

(** ** The iteration bound does not matter once it suffices *)

Section Fuel.
Context {RS : RandomSource} {SI : SetIteration}.
Import InstanceGenerator.

Lemma settled_refl {A} (c : M A) : settled c c.
Proof. now intros s _. Qed.

Lemma settled_bind {A B} (c1 c2 : M A) (k1 k2 : A -> M B) :
  settled c1 c2 -> (forall a, settled (k1 a) (k2 a)) ->
  settled (bind c1 k1) (bind c2 k2).
Proof.
  intros Hc Hk s H. unfold bind in *.
  pose proof (Hc s) as Hs.
  destruct (c1 s) as [[[a|e|] t] s'] eqn:E1.
  - rewrite Hs by discriminate.
    pose proof (Hk a s') as Ha.
    destruct (k1 a s') as [[r t'] s''] eqn:E2.
    rewrite Ha; [reflexivity|]. unfold result in *. simpl in *. exact H.
  - now rewrite Hs by discriminate.
  - now contradiction H.
Qed.

Lemma fill_settled m n ne : forall fuel fuel' S,
  (fuel <= fuel')%nat -> settled (fill fuel m n ne S) (fill fuel' m n ne S).
Proof.
  induction fuel as [|fuel IH]; intros fuel' S Hle.
  - intros s H. simpl in *. destruct (Z.ltb_spec (len S) ne) as [Hlt|Hge].
    + now contradiction H.
    + now rewrite fill_done by lia.
  - destruct fuel' as [|fuel']; [lia|]. simpl.
    destruct (len S <? ne); [|apply settled_refl].
    apply settled_bind; [apply settled_refl | intros p].
    apply settled_bind; [apply settled_refl | intros d].
    apply IH. lia.
Qed.

Lemma gen_instance_settled fuel fuel' m n ne b benefit_max dep_max sd :
  (fuel <= fuel')%nat ->
  settled (gen_instance fuel m n ne b benefit_max dep_max sd)
          (gen_instance fuel' m n ne b benefit_max dep_max sd).
Proof.
  intros Hle. unfold gen_instance, build.
  apply settled_bind; [|intros I; apply settled_refl].
  apply settled_bind; [apply settled_refl | intros _].
  apply settled_bind; [apply settled_refl | intros ne'].
  apply settled_bind; [apply settled_refl | intros bs].
  apply settled_bind; [apply settled_refl | intros ds].
  apply settled_bind; [apply settled_refl | intros S].
  apply settled_bind; [now apply fill_settled | intros S'].
  apply settled_refl.
Qed.

(** Seeding makes the run independent of the state the source was in. *)
Lemma seeded_clamp_run fuel m n ne b benefit_max dep_max sd s1 s2 :
  gen_instance fuel m n ne b benefit_max dep_max (Some sd) s1
  = gen_instance fuel m n ne b benefit_max dep_max (Some sd) s2.
Proof. reflexivity. Qed.

Lemma seeded_raise_run m n ne b benefit_max dep_max sd s1 s2 :
  GeradorDeInstancias.gen_instance m n ne b benefit_max dep_max (Some sd) s1
  = GeradorDeInstancias.gen_instance m n ne b benefit_max dep_max (Some sd) s2.
Proof. reflexivity. Qed.
End Fuel.

(** ** Runs that fail on empty sampling ranges *)

Lemma range_cons m : 1 <= m -> exists xs, range m = 0 :: xs.
Proof.
  intros Hm. unfold range.
  destruct (Z.to_nat m) as [|k] eqn:E; [lia|].
  simpl. now eexists.
Qed.

Lemma all_pairs_nil m n : m <= 0 \/ n <= 0 -> GeradorDeInstancias.all_pairs m n = [].
Proof.
  intros H. apply length_zero_iff_nil. rewrite length_all_pairs. lia.
Qed.

Section Failures.
Context {RS : RandomSource} {SI : SetIteration}.

Lemma for_list_randint_cases a b (xs : list Z) s :
  (exists vs s', for_list xs (fun _ => random_randint a b) s = (Ok vs, [], s'))
  \/ for_list xs (fun _ => random_randint a b) s
     = (Raise (ValueError_empty_range a b), [], s).
Proof.
  destruct (Z_le_gt_dec a b) as [Hab|Hab].
  - left. destruct (for_list_randint a b Hab xs s) as (vs & s' & E & _).
    now exists vs, s'.
  - destruct xs as [|x xs].
    + left. now exists [], s.
    + right. apply for_list_randint_raises. lia.
Qed.

Lemma cover_raises m n s : 1 <= m -> n <= 0 ->
  InstanceGenerator.cover m n s = (Raise (ValueError_empty_range 0 (n - 1)), [], s).
Proof.
  intros Hm Hn. unfold InstanceGenerator.cover.
  destruct (range_cons m Hm) as (xs & ->). simpl.
  apply bind_raise, bind_raise, randint_raises. lia.
Qed.

(** [instance_generator.py] fails on [n <= 0 < m]: the first coverage
    draw, [randint(0, n - 1)], has an empty range (unless the benefit
    draws failed before it). *)
Lemma clamp_variant_raises_value_error fuel m n ne b benefit_max dep_max sd s :
  1 <= m -> n <= 0 ->
  exists e s',
    InstanceGenerator.gen_instance fuel m n ne b benefit_max dep_max sd s
    = (Raise e, notices m n ne, s')
    /\ is_ValueError e = true.
Proof.
  intros Hm Hn.
  unfold InstanceGenerator.gen_instance, InstanceGenerator.build.
  destruct (for_list_randint_cases 10 benefit_max (range m) (seeded sd s))
    as [(bs & s1 & Eb)|Eb].
  - exists (ValueError_empty_range 0 (n - 1)), s1. split; [|reflexivity].
    apply bind_raise.
    rewrite (bind_quiet _ _ _ _ _ (seed_step sd s)).
    rewrite (bind_ok _ _ _ _ _ _ (adjust_run m n ne (seeded sd s))).
    rewrite (bind_quiet _ _ _ _ _ Eb).
    rewrite (range_nil n Hn).
    rewrite (bind_quiet (for_list [] _) _ s1 [] s1 eq_refl).
    rewrite (bind_raise _ _ _ _ _ _ (cover_raises m n s1 Hm Hn)).
    now rewrite app_nil_r.
  - exists (ValueError_empty_range 10 benefit_max), (seeded sd s).
    split; [|reflexivity].
    apply bind_raise.
    rewrite (bind_quiet _ _ _ _ _ (seed_step sd s)).
    rewrite (bind_ok _ _ _ _ _ _ (adjust_run m n ne (seeded sd s))).
    rewrite (bind_raise _ _ _ _ _ _ Eb).
    now rewrite app_nil_r.
Qed.

End Failures.

(** ** From the instance to the text *)

Lemma text_lines_render I : text_lines (render I) = out_lines I.
Proof. apply split_render. Qed.

Lemma pair_lines_render I : pair_lines (render I) = map pair_line (pairs I).
Proof. unfold pair_lines. now rewrite text_lines_render. Qed.

Lemma header_fields_render I :
  header_fields (render I)
  = [str (inst_m I); str (inst_n I); str (inst_ne I); str (inst_b I)].
Proof. unfold header_fields. rewrite text_lines_render. apply split_header. Qed.

Lemma len_map {A B} (f : A -> B) l : len (map f l) = len l.
Proof. unfold len. now rewrite length_map. Qed.

Lemma len_cons {A} (x : A) l : len (x :: l) = 1 + len l.
Proof. unfold len. rewrite length_cons. lia. Qed.

Section Texts.
Context {RS : RandomSource} {SI : SetIteration}.

Lemma clamp_text fuel m n ne b benefit_max dep_max sd s I t s' :
  InstanceGenerator.build fuel m n ne b benefit_max dep_max sd s = (Ok I, t, s') ->
  InstanceGenerator.gen_instance fuel m n ne b benefit_max dep_max sd s
  = (Ok (render I), t, s').
Proof.
  intros H. unfold InstanceGenerator.gen_instance.
  rewrite (bind_ok _ _ _ _ _ _ H). unfold ret. now rewrite app_nil_r.
Qed.

Lemma raise_text m n ne b benefit_max dep_max sd s I t s' :
  GeradorDeInstancias.build m n ne b benefit_max dep_max sd s = (Ok I, t, s') ->
  GeradorDeInstancias.gen_instance m n ne b benefit_max dep_max sd s
  = (Ok (render I), t, s').
Proof.
  intros H. unfold GeradorDeInstancias.gen_instance.
  rewrite (bind_ok _ _ _ _ _ _ H). unfold ret. now rewrite app_nil_r.
Qed.
End Texts.

Lemma render_laid_out I :
  1 <= inst_m I -> 1 <= inst_n I ->
  len (benefits I) = inst_m I -> len (deps I) = inst_n I ->
  len (pairs I) = inst_ne I ->
  laid_out (inst_m I) (inst_n I) (inst_ne I) (inst_b I) (render I).
Proof.
  intros Hm Hn Lb Ld Lp.
  exists (benefits I), (deps I), (pairs I).
  rewrite header_fields_render, text_lines_render.
  unfold out_lines. cbn [Datatypes.app].
  split; [reflexivity|]. split.
  { rewrite !len_cons, len_map. lia. }
  split; [reflexivity|].
  split; [apply split_values; intros E; rewrite E in Lb; unfold len in Lb; simpl in Lb; lia|].
  split; [assumption|].
  split; [apply split_values; intros E; rewrite E in Ld; unfold len in Ld; simpl in Ld; lia|].
  split; [assumption|]. split; [assumption|].
  apply Forall_forall. intros q _. apply split_pair.
Qed.

(** With an empty sampling range the first draw raises, in both scripts
    ([random.randint(10, benefit_max)] with [benefit_max < 10]). *)
Lemma empty_benefit_range_raises {RS : RandomSource} {SI : SetIteration}
      fuel m n ne b benefit_max dep_max sd s :
  1 <= m -> benefit_max < 10 ->
  GeradorDeInstancias.gen_instance m n ne b benefit_max dep_max sd s
  = (Raise (ValueError_empty_range 10 benefit_max), [], seeded sd s)
  /\ InstanceGenerator.gen_instance fuel m n ne b benefit_max dep_max sd s
     = (Raise (ValueError_empty_range 10 benefit_max), notices m n ne, seeded sd s).
Proof.
  intros Hm Hb. destruct (range_cons m Hm) as (xs & Hxs).
  pose proof (for_list_randint_raises 10 benefit_max Hb 0 xs (seeded sd s)) as E.
  rewrite <- Hxs in E. split.
  - unfold GeradorDeInstancias.gen_instance, GeradorDeInstancias.build.
    apply bind_raise. rewrite (bind_quiet _ _ _ _ _ (seed_step sd s)).
    now apply bind_raise.
  - unfold InstanceGenerator.gen_instance, InstanceGenerator.build.
    apply bind_raise. rewrite (bind_quiet _ _ _ _ _ (seed_step sd s)).
    rewrite (bind_ok _ _ _ _ _ _ (adjust_run m n ne (seeded sd s))).
    rewrite (bind_raise _ _ _ _ _ _ E). now rewrite app_nil_r.
Qed.

(** * The claims

    Valid input below means sizes [m, n >= 1] and sampling ranges that are
    not empty, [benefit_max >= 10] and [dep_max >= 5].  What is said of
    [instance_generator.py] beyond the coverage step is said of a fair
    random source, for which its rejection loop ends; the text returned is
    then the same for every sufficient bound on the loop's iterations. *)

(** C1. For valid sizes with [m <= ne <= m*n] and any seed, the pairs
    written by [gen_instance] are [ne] distinct pairs [(p, d)] with
    [0 <= p < m] and [0 <= d < n], on [ne] distinct lines, in both
    scripts. *)
Theorem pairs_unique_in_range {RS : RandomSource} {SI : SetIteration}
        m n ne b benefit_max dep_max sd s :
  1 <= m -> 1 <= n -> m <= ne <= m * n ->
  10 <= benefit_max -> 5 <= dep_max ->
  (exists text ps s',
      GeradorDeInstancias.gen_instance m n ne b benefit_max dep_max sd s
      = (Ok text, [], s')
      /\ pair_lines text = map pair_line ps
      /\ NoDup (pair_lines text)
      /\ NoDup ps /\ len ps = ne /\ Forall (in_grid m n) ps)
  /\
  (fair m n ->
   exists fuel text ps s',
      (forall fuel', (fuel <= fuel')%nat ->
         InstanceGenerator.gen_instance fuel' m n ne b benefit_max dep_max sd s
         = (Ok text, [], s'))
      /\ pair_lines text = map pair_line ps
      /\ NoDup (pair_lines text)
      /\ NoDup ps /\ len ps = ne /\ Forall (in_grid m n) ps).
Proof.
  intros Hm Hn Hne Hb Hd. split.
  - destruct (enumerate_ok m n ne b benefit_max dep_max sd s
                ltac:(lia) ltac:(lia) ltac:(lia) Hb Hd)
      as (I & s' & E & _ & _ & _ & _ & _ & _ & _ & _ & Hnd & Hg & Hl).
    exists (render I), (pairs I), s'.
    split; [now apply raise_text|]. split; [apply pair_lines_render|].
    split; [rewrite pair_lines_render; apply Injective_map_NoDup;
            [intros x y; apply pair_line_inj | assumption]|].
    auto.
  - intros Hfair.
    destruct (build_total m n ne b benefit_max dep_max sd s Hm Hn Hb Hd Hfair)
      as (fuel & I & s' & E & _ & _ & _ & _ & _ & _ & _ & _ & Hnd & Hg & Hl & _).
    rewrite (adjusted_valid m n ne Hne) in Hl.
    rewrite (notices_valid m n ne Hne) in E.
    exists fuel, (render I), (pairs I), s'.
    split; [intros fuel' Hle; now apply clamp_text, E|].
    split; [apply pair_lines_render|].
    split; [rewrite pair_lines_render; apply Injective_map_NoDup;
            [intros x y; apply pair_line_inj | assumption]|].
    auto.
Qed.

Lemma pairs_unique_in_range_witness :
  (exists text ps s',
      @GeradorDeInstancias.gen_instance counter_source 3 2 4 100 600 400 (Some 7) 0%nat
      = (Ok text, [], s')
      /\ pair_lines text = map pair_line ps
      /\ NoDup (pair_lines text)
      /\ NoDup ps /\ len ps = 4 /\ Forall (in_grid 3 2) ps)
  /\
  (exists fuel text ps s',
      (forall fuel', (fuel <= fuel')%nat ->
         @InstanceGenerator.gen_instance counter_source insertion_order
           fuel' 3 2 4 100 600 400 (Some 7) 0%nat
         = (Ok text, [], s'))
      /\ pair_lines text = map pair_line ps
      /\ NoDup (pair_lines text)
      /\ NoDup ps /\ len ps = 4 /\ Forall (in_grid 3 2) ps).
Proof.
  destruct (@pairs_unique_in_range counter_source insertion_order
              3 2 4 100 600 400 (Some 7) 0%nat) as [G C]; try lia.
  split; [exact G | apply C, counter_fair; lia].
Defined.

(** C3. In [instance_generator.py], for valid sizes with
    [m <= ne <= m*n], every package index [i] of [0..m-1] is the package of
    at least one of the pairs written. *)
Theorem every_package_covered {RS : RandomSource} {SI : SetIteration}
        m n ne b benefit_max dep_max sd s :
  1 <= m -> 1 <= n -> m <= ne <= m * n ->
  10 <= benefit_max -> 5 <= dep_max -> fair m n ->
  exists fuel text s',
    (forall fuel', (fuel <= fuel')%nat ->
       InstanceGenerator.gen_instance fuel' m n ne b benefit_max dep_max sd s
       = (Ok text, [], s'))
    /\ forall i, 0 <= i < m -> exists d, In (pair_line (i, d)) (pair_lines text).
Proof.
  intros Hm Hn Hne Hb Hd Hfair.
  destruct (build_total m n ne b benefit_max dep_max sd s Hm Hn Hb Hd Hfair)
    as (fuel & I & s' & E & _ & _ & _ & _ & _ & _ & _ & _ & _ & _ & _ & Hcov).
  rewrite (notices_valid m n ne Hne) in E.
  exists fuel, (render I), s'.
  split; [intros fuel' Hle; now apply clamp_text, E|].
  intros i Hi. apply in_range in Hi. apply Hcov in Hi.
  apply in_map_iff in Hi as ([p d] & Hp & Hq). simpl in Hp. subst p.
  exists d. rewrite pair_lines_render. now apply in_map.
Qed.

Lemma every_package_covered_witness :
  exists fuel text s',
    (forall fuel', (fuel <= fuel')%nat ->
       @InstanceGenerator.gen_instance counter_source insertion_order
         fuel' 3 2 4 100 600 400 (Some 7) 0%nat
       = (Ok text, [], s'))
    /\ forall i, 0 <= i < 3 -> exists d, In (pair_line (i, d)) (pair_lines text).
Proof.
  apply (@every_package_covered counter_source insertion_order
           3 2 4 100 600 400 (Some 7) 0%nat); try lia.
  apply counter_fair; lia.
Defined.

(** C5. For valid input the text returned by [gen_instance] has exactly
    [3 + ne] lines separated by newlines: the header ["m n ne b"], [m]
    benefit values separated by spaces, [n] weight values separated by
    spaces, and [ne] lines of one ["package dependency"] pair each, in both
    scripts. *)
Theorem text_layout {RS : RandomSource} {SI : SetIteration}
        m n ne b benefit_max dep_max sd s :
  1 <= m -> 1 <= n -> m <= ne <= m * n ->
  10 <= benefit_max -> 5 <= dep_max ->
  (exists text s',
      GeradorDeInstancias.gen_instance m n ne b benefit_max dep_max sd s
      = (Ok text, [], s')
      /\ laid_out m n ne b text)
  /\
  (fair m n ->
   exists fuel text s',
      (forall fuel', (fuel <= fuel')%nat ->
         InstanceGenerator.gen_instance fuel' m n ne b benefit_max dep_max sd s
         = (Ok text, [], s'))
      /\ laid_out m n ne b text).
Proof.
  intros Hm Hn Hne Hb Hd. split.
  - destruct (enumerate_ok m n ne b benefit_max dep_max sd s
                ltac:(lia) ltac:(lia) ltac:(lia) Hb Hd)
      as (I & s' & E & Im & In' & Ine & Ib & Lb & _ & Ld & _ & _ & _ & Lp).
    exists (render I), s'. split; [now apply raise_text|].
    rewrite <- Im, <- In', <- Ine, <- Ib.
    apply render_laid_out; unfold len in *; lia.
  - intros Hfair.
    destruct (build_total m n ne b benefit_max dep_max sd s Hm Hn Hb Hd Hfair)
      as (fuel & I & s' & E & Im & In' & Ine & Ib & Lb & _ & Ld & _ & _ & _ & Lp & _).
    rewrite (adjusted_valid m n ne Hne) in Lp, Ine.
    rewrite (notices_valid m n ne Hne) in E.
    exists fuel, (render I), s'.
    split; [intros fuel' Hle; now apply clamp_text, E|].
    rewrite <- Im, <- In', <- Ine, <- Ib.
    apply render_laid_out; unfold len in *; lia.
Qed.

Lemma text_layout_witness :
  (exists text s',
      @GeradorDeInstancias.gen_instance counter_source 3 2 4 100 600 400 (Some 7) 0%nat
      = (Ok text, [], s')
      /\ laid_out 3 2 4 100 text)
  /\
  (exists fuel text s',
      (forall fuel', (fuel <= fuel')%nat ->
         @InstanceGenerator.gen_instance counter_source insertion_order
           fuel' 3 2 4 100 600 400 (Some 7) 0%nat
         = (Ok text, [], s'))
      /\ laid_out 3 2 4 100 text).
Proof.
  destruct (@text_layout counter_source insertion_order
              3 2 4 100 600 400 (Some 7) 0%nat) as [G C]; try lia.
  split; [exact G | apply C, counter_fair; lia].
Defined.

(** C7. For valid input [gen_instance] produces [m] benefit values, the
    second line of the text, each within [10..benefit_max], and [n] weight
    values, the third line, each within [5..dep_max]; the k-th value of a
    line belongs to index [k].  Both scripts. *)
Theorem values_sampled_in_range {RS : RandomSource} {SI : SetIteration}
        m n ne b benefit_max dep_max sd s :
  1 <= m -> 1 <= n -> m <= ne <= m * n ->
  10 <= benefit_max -> 5 <= dep_max ->
  (exists text bs ds s',
      GeradorDeInstancias.gen_instance m n ne b benefit_max dep_max sd s
      = (Ok text, [], s')
      /\ nth 1 (text_lines text) "" = values_line bs
      /\ len bs = m /\ Forall (fun v => 10 <= v <= benefit_max) bs
      /\ nth 2 (text_lines text) "" = values_line ds
      /\ len ds = n /\ Forall (fun v => 5 <= v <= dep_max) ds)
  /\
  (fair m n ->
   exists fuel text bs ds s',
      (forall fuel', (fuel <= fuel')%nat ->
         InstanceGenerator.gen_instance fuel' m n ne b benefit_max dep_max sd s
         = (Ok text, [], s'))
      /\ nth 1 (text_lines text) "" = values_line bs
      /\ len bs = m /\ Forall (fun v => 10 <= v <= benefit_max) bs
      /\ nth 2 (text_lines text) "" = values_line ds
      /\ len ds = n /\ Forall (fun v => 5 <= v <= dep_max) ds).
Proof.
  intros Hm Hn Hne Hb Hd. split.
  - destruct (enumerate_ok m n ne b benefit_max dep_max sd s
                ltac:(lia) ltac:(lia) ltac:(lia) Hb Hd)
      as (I & s' & E & _ & _ & _ & _ & Lb & Fb & Ld & Fd & _).
    exists (render I), (benefits I), (deps I), s'.
    split; [now apply raise_text|]. rewrite text_lines_render.
    unfold len. repeat split; auto; lia.
  - intros Hfair.
    destruct (build_total m n ne b benefit_max dep_max sd s Hm Hn Hb Hd Hfair)
      as (fuel & I & s' & E & _ & _ & _ & _ & Lb & Fb & Ld & Fd & _).
    rewrite (notices_valid m n ne Hne) in E.
    exists fuel, (render I), (benefits I), (deps I), s'.
    split; [intros fuel' Hle; now apply clamp_text, E|].
    rewrite text_lines_render. unfold len. repeat split; auto; lia.
Qed.

Lemma values_sampled_in_range_witness :
  (exists text bs ds s',
      @GeradorDeInstancias.gen_instance counter_source 3 2 4 100 600 400 (Some 7) 0%nat
      = (Ok text, [], s')
      /\ nth 1 (text_lines text) "" = values_line bs
      /\ len bs = 3 /\ Forall (fun v => 10 <= v <= 600) bs
      /\ nth 2 (text_lines text) "" = values_line ds
      /\ len ds = 2 /\ Forall (fun v => 5 <= v <= 400) ds)
  /\
  (exists fuel text bs ds s',
      (forall fuel', (fuel <= fuel')%nat ->
         @InstanceGenerator.gen_instance counter_source insertion_order
           fuel' 3 2 4 100 600 400 (Some 7) 0%nat
         = (Ok text, [], s'))
      /\ nth 1 (text_lines text) "" = values_line bs
      /\ len bs = 3 /\ Forall (fun v => 10 <= v <= 600) bs
      /\ nth 2 (text_lines text) "" = values_line ds
      /\ len ds = 2 /\ Forall (fun v => 5 <= v <= 400) ds).
Proof.
  destruct (@values_sampled_in_range counter_source insertion_order
              3 2 4 100 600 400 (Some 7) 0%nat) as [G C]; try lia.
  split; [exact G | apply C, counter_fair; lia].
Defined.

(** C10. The [ne] field of the header equals the number of pair lines
    below it: in [instance_generator.py] for every integer [ne], the field
    being the adjusted value, which lies in [m..m*n]; in
    [gerador_de_instâncias.py] for every [ne] with [0 <= ne <= m*n]. *)
Theorem header_ne_counts_pair_lines {RS : RandomSource} {SI : SetIteration}
        m n b benefit_max dep_max sd s :
  1 <= m -> 1 <= n -> 10 <= benefit_max -> 5 <= dep_max ->
  (fair m n ->
   forall ne,
      exists fuel text s',
        (forall fuel', (fuel <= fuel')%nat ->
           InstanceGenerator.gen_instance fuel' m n ne b benefit_max dep_max sd s
           = (Ok text, notices m n ne, s'))
        /\ nth 2 (header_fields text) "" = str (adjusted m n ne)
        /\ len (pair_lines text) = adjusted m n ne
        /\ m <= adjusted m n ne <= m * n)
  /\
  (forall ne, 0 <= ne <= m * n ->
      exists text s',
        GeradorDeInstancias.gen_instance m n ne b benefit_max dep_max sd s
        = (Ok text, [], s')
        /\ nth 2 (header_fields text) "" = str ne
        /\ len (pair_lines text) = ne).
Proof.
  intros Hm Hn Hb Hd. split.
  - intros Hfair ne.
    destruct (build_total m n ne b benefit_max dep_max sd s Hm Hn Hb Hd Hfair)
      as (fuel & I & s' & E & _ & _ & Ine & _ & _ & _ & _ & _ & _ & _ & Lp & _).
    exists fuel, (render I), s'.
    split; [intros fuel' Hle; now apply clamp_text, E|].
    rewrite header_fields_render, pair_lines_render, len_map. simpl.
    repeat split; try congruence; now apply adjusted_bounds.
  - intros ne Hne.
    destruct (enumerate_ok m n ne b benefit_max dep_max sd s
                ltac:(lia) ltac:(lia) Hne Hb Hd)
      as (I & s' & E & _ & _ & Ine & _ & _ & _ & _ & _ & _ & _ & Lp).
    exists (render I), s'. split; [now apply raise_text|].
    rewrite header_fields_render, pair_lines_render, len_map. simpl.
    split; congruence.
Qed.

Lemma header_ne_counts_pair_lines_witness :
  (forall ne,
      exists fuel text s',
        (forall fuel', (fuel <= fuel')%nat ->
           @InstanceGenerator.gen_instance counter_source insertion_order
             fuel' 3 2 ne 100 600 400 (Some 7) 0%nat
           = (Ok text, notices 3 2 ne, s'))
        /\ nth 2 (header_fields text) "" = str (adjusted 3 2 ne)
        /\ len (pair_lines text) = adjusted 3 2 ne
        /\ 3 <= adjusted 3 2 ne <= 3 * 2)
  /\
  (exists text s',
      @GeradorDeInstancias.gen_instance counter_source 3 2 2 100 600 400 (Some 7) 0%nat
      = (Ok text, [], s')
      /\ nth 2 (header_fields text) "" = str 2
      /\ len (pair_lines text) = 2).
Proof.
  destruct (@header_ne_counts_pair_lines counter_source insertion_order
              3 2 100 600 400 (Some 7) 0%nat) as [C G]; try lia.
  split; [apply C, counter_fair; lia | apply G; lia].
Defined.

(** C8. In [instance_generator.py] a call with [ne = m] writes the
    coverage set alone: [m] pairs, one for each package index, and the
    rejection loop does not run once (the result is there for every bound
    on its iterations, zero included). *)
Theorem minimal_edge_set {RS : RandomSource} {SI : SetIteration}
        m n b benefit_max dep_max sd s :
  1 <= m -> 1 <= n -> 10 <= benefit_max -> 5 <= dep_max ->
  exists text ps s',
    (forall fuel,
       InstanceGenerator.gen_instance fuel m n m b benefit_max dep_max sd s
       = (Ok text, [], s'))
    /\ pair_lines text = map pair_line ps
    /\ len ps = m
    /\ Permutation (map fst ps) (range m).
Proof.
  intros Hm Hn Hb Hd.
  destruct (build_prefix m n m b benefit_max dep_max sd s Hn Hb Hd)
    as (bs & ds & S & s2 & _ & _ & _ & _ & Hfst & _ & _ & LS & Hrun).
  assert (Hv : m <= m <= m * n) by nia.
  rewrite (adjusted_valid m n m Hv), (notices_valid m n m Hv) in Hrun.
  assert (Hdone : forall fuel, InstanceGenerator.fill fuel m n m S s2 = (Ok S, [], s2)).
  { intros fuel. rewrite fill_done; [reflexivity | unfold len; lia]. }
  destruct (finish_run O m n m b bs ds S s2 S s2 (Hdone O)) as (ps & s' & Efin & P).
  exists (render {| inst_m := m; inst_n := n; inst_ne := m; inst_b := b;
                    benefits := bs; deps := ds; pairs := ps |}), ps, s'.
  split; [|split; [apply pair_lines_render | split]].
  - intros fuel. apply clamp_text. rewrite Hrun.
    unfold finish in Efin |- *.
    rewrite (bind_quiet _ _ _ _ _ (Hdone fuel)).
    rewrite (bind_quiet _ _ _ _ _ (Hdone O)) in Efin.
    now rewrite Efin.
  - unfold len. rewrite <- (Permutation_length P). lia.
  - rewrite <- Hfst. apply Permutation_map, Permutation_sym, P.
Qed.

Lemma minimal_edge_set_witness :
  exists text ps s',
    (forall fuel,
       @InstanceGenerator.gen_instance counter_source insertion_order
         fuel 3 2 3 100 600 400 (Some 7) 0%nat
       = (Ok text, [], s'))
    /\ pair_lines text = map pair_line ps
    /\ len ps = 3
    /\ Permutation (map fst ps) (range 3).
Proof.
  apply (@minimal_edge_set counter_source insertion_order
           3 2 100 600 400 (Some 7) 0%nat); lia.
Defined.

(** C2. With a seed given, two runs of [gen_instance] on the same
    arguments end alike, whatever state the random source was in before:
    same text (or same exception), in both scripts; for
    [instance_generator.py] also across different bounds on the loop, as
    long as neither run exhausts its bound. *)
Theorem seeded_runs_identical {RS : RandomSource} {SI : SetIteration}
        m n ne b benefit_max dep_max (sd : Z) (s1 s2 : rstate) :
  GeradorDeInstancias.gen_instance m n ne b benefit_max dep_max (Some sd) s1
  = GeradorDeInstancias.gen_instance m n ne b benefit_max dep_max (Some sd) s2
  /\
  (forall fuel,
      InstanceGenerator.gen_instance fuel m n ne b benefit_max dep_max (Some sd) s1
      = InstanceGenerator.gen_instance fuel m n ne b benefit_max dep_max (Some sd) s2)
  /\
  (forall fuel1 fuel2,
      result (InstanceGenerator.gen_instance
                fuel1 m n ne b benefit_max dep_max (Some sd) s1) <> OutOfFuel ->
      result (InstanceGenerator.gen_instance
                fuel2 m n ne b benefit_max dep_max (Some sd) s2) <> OutOfFuel ->
      InstanceGenerator.gen_instance fuel1 m n ne b benefit_max dep_max (Some sd) s1
      = InstanceGenerator.gen_instance fuel2 m n ne b benefit_max dep_max (Some sd) s2).
Proof.
  split; [apply seeded_raise_run|]. split; [intros fuel; apply seeded_clamp_run|].
  intros fuel1 fuel2 H1 H2.
  rewrite <- (gen_instance_settled fuel1 (Nat.max fuel1 fuel2)
                m n ne b benefit_max dep_max (Some sd) (Nat.le_max_l _ _) s1 H1).
  rewrite <- (gen_instance_settled fuel2 (Nat.max fuel1 fuel2)
                m n ne b benefit_max dep_max (Some sd) (Nat.le_max_r _ _) s2 H2).
  apply seeded_clamp_run.
Qed.

Lemma seeded_runs_identical_witness :
  @InstanceGenerator.gen_instance counter_source insertion_order
    9 3 2 5 100 600 400 (Some 42) 0%nat
  = @InstanceGenerator.gen_instance counter_source insertion_order
      50 3 2 5 100 600 400 (Some 42) 1234%nat.
Proof.
  apply (@seeded_runs_identical counter_source insertion_order
           3 2 5 100 600 400 42 0%nat 1234%nat); vm_compute; discriminate.
Defined.

(** C4, as stated, fails: [gerador_de_instâncias.py] does not raise on
    [ne < m].  Asked for one pair for three packages, it returns an instance
    with that one pair. *)
Lemma raise_policy_accepts_small_ne :
  1 < 3 /\
  @GeradorDeInstancias.gen_instance counter_source 3 2 1 100 600 400 (Some 7) 0%nat
  = (Ok (render {| inst_m := 3; inst_n := 2; inst_ne := 1; inst_b := 100;
                   benefits := [10; 11; 11]; deps := [6; 6];
                   pairs := [(2, 0)] |}),
     [], 17%nat).
Proof. split; [lia | vm_compute; reflexivity]. Qed.

(** C4, amended. [gerador_de_instâncias.py] raises [ValueError]
    ("ne cannot exceed m*n") whenever [ne > m*n]; it has no lower bound:
    for every [ne <= m*n], below [m] or not, it returns an instance, with
    [ne] pair lines when [0 <= ne]. *)
Theorem raise_policy_upper_bound_only {RS : RandomSource}
        m n ne b benefit_max dep_max sd s :
  0 <= m -> 0 <= n -> 10 <= benefit_max -> 5 <= dep_max ->
  (ne > m * n ->
     exists s',
       GeradorDeInstancias.gen_instance m n ne b benefit_max dep_max sd s
       = (Raise (ValueError "ne cannot exceed m*n"), [], s'))
  /\
  (ne <= m * n ->
     exists text s',
       GeradorDeInstancias.gen_instance m n ne b benefit_max dep_max sd s
       = (Ok text, [], s')
       /\ (0 <= ne -> len (pair_lines text) = ne)).
Proof.
  intros Hm Hn Hb Hd. split; intros Hne.
  - destruct (enumerate_refuses m n ne b benefit_max dep_max sd s Hm Hn Hne Hb Hd)
      as (s' & E).
    exists s'. unfold GeradorDeInstancias.gen_instance.
    now rewrite (bind_raise _ _ _ _ _ _ E).
  - destruct (enumerate_run m n ne b benefit_max dep_max sd s Hb Hd)
      as (bs & ds & ap & s' & _ & _ & _ & _ & P & E).
    assert (Hlen : len ap = m * n).
    { unfold len. rewrite <- (Permutation_length P). now apply len_all_pairs. }
    replace (ne >? len ap) with false in E
      by (symmetry; rewrite Z.gtb_ltb; apply Z.ltb_ge; lia).
    eexists _, s'. split; [apply raise_text, E|].
    intros H0. rewrite pair_lines_render, len_map. simpl.
    apply slice_to_len. lia.
Qed.

Lemma raise_policy_upper_bound_only_witness :
  (exists s',
      @GeradorDeInstancias.gen_instance counter_source 3 2 7 100 600 400 (Some 7) 0%nat
      = (Raise (ValueError "ne cannot exceed m*n"), [], s'))
  /\
  (exists text s',
      @GeradorDeInstancias.gen_instance counter_source 3 2 1 100 600 400 (Some 7) 0%nat
      = (Ok text, [], s')
      /\ (0 <= 1 -> len (pair_lines text) = 1)).
Proof.
  split.
  - apply (@raise_policy_upper_bound_only counter_source
             3 2 7 100 600 400 (Some 7) 0%nat); lia.
  - apply (@raise_policy_upper_bound_only counter_source
             3 2 1 100 600 400 (Some 7) 0%nat); lia.
Defined.

(** C9, as stated, fails for [instance_generator.py]: a call with
    [ne < m] prints a notice on the console. *)
Lemma clamp_prints_notice :
  events (@InstanceGenerator.gen_instance counter_source insertion_order
            9 3 2 1 100 600 400 (Some 7) 0%nat)
  = [Print "[!] ne=1 is too small. Adjusted to 3 to ensure each package has a dependency."].
Proof. vm_compute. reflexivity. Qed.

(** C9, amended. Besides returning the text (or raising) and advancing the
    random source, [gen_instance] writes nothing to storage in either
    script; [gerador_de_instâncias.py] prints nothing;
    [instance_generator.py] prints the notice of an adjusted [ne] and
    nothing else, hence nothing when [m <= ne <= m*n]. *)
Theorem console_and_storage {RS : RandomSource} {SI : SetIteration}
        fuel m n ne b benefit_max dep_max sd s :
  events (GeradorDeInstancias.gen_instance m n ne b benefit_max dep_max sd s) = []
  /\ events (InstanceGenerator.gen_instance fuel m n ne b benefit_max dep_max sd s)
     = notices m n ne
  /\ (m <= ne <= m * n ->
      events (InstanceGenerator.gen_instance fuel m n ne b benefit_max dep_max sd s)
      = [])
  /\ (forall name data,
        ~ In (WriteFile name data)
             (events (InstanceGenerator.gen_instance
                        fuel m n ne b benefit_max dep_max sd s))).
Proof.
  split; [apply events_raise_variant|].
  split; [apply events_clamp_variant|].
  split.
  - intros Hne. rewrite events_clamp_variant. now apply notices_valid.
  - intros name data. rewrite events_clamp_variant. unfold notices.
    destruct (ne <? m); [intros [H|[]]; discriminate|].
    destruct (ne >? m * n); [intros [H|[]]; discriminate | intros []].
Qed.

Lemma console_and_storage_witness :
  events (@GeradorDeInstancias.gen_instance counter_source
            3 2 4 100 600 400 (Some 7) 0%nat) = []
  /\ events (@InstanceGenerator.gen_instance counter_source insertion_order
               9 3 2 4 100 600 400 (Some 7) 0%nat) = []
  /\ events (@InstanceGenerator.gen_instance counter_source insertion_order
               9 3 2 7 100 600 400 (Some 7) 0%nat)
     = [Print "[!] ne=7 is too large. Adjusted to maximum possible 6."].
Proof.
  destruct (@console_and_storage counter_source insertion_order
              9 3 2 4 100 600 400 (Some 7) 0%nat) as (R & _ & V & _).
  destruct (@console_and_storage counter_source insertion_order
              9 3 2 7 100 600 400 (Some 7) 0%nat) as (_ & N & _).
  split; [exact R | split; [apply V; lia | exact N]].
Defined.

(** * Further properties of the scripts *)

(** ** Reading a run backwards *)

Section Inversion.
Context {RS : RandomSource}.

Lemma bind_Ok_inv {A B} (c : M A) (k : A -> M B) s b t s' :
  bind c k s = (Ok b, t, s') ->
  exists a t1 s1 t2,
    c s = (Ok a, t1, s1) /\ k a s1 = (Ok b, t2, s') /\ t = t1 ++ t2.
Proof.
  unfold bind. destruct (c s) as [[[a|e|] t1] s1]; try discriminate.
  destruct (k a s1) as [[r t2] s2] eqn:E. intros [= -> <- ->].
  now exists a, t1, s1, t2.
Qed.

Lemma randint_Ok_inv a b s v t s' :
  random_randint a b s = (Ok v, t, s') -> randint a b s = Some (v, s') /\ t = [].
Proof.
  unfold random_randint. destruct (randint a b s) as [[v0 s0]|]; [|discriminate].
  now intros [= -> <- ->].
Qed.
End Inversion.

(** ** The shape of a run, with the values drawn made explicit *)

Section Shapes.
Context {RS : RandomSource} {SI : SetIteration}.

(** Both scripts begin alike: after seeding they draw the [m] benefits and
    then the [n] weights. *)
Lemma values_drawn m n benefit_max dep_max s0 :
  10 <= benefit_max -> 5 <= dep_max ->
  exists bs ds s1 s2,
    for_list (range m) (fun _ => random_randint 10 benefit_max) s0 = (Ok bs, [], s1)
    /\ for_list (range n) (fun _ => random_randint 5 dep_max) s1 = (Ok ds, [], s2)
    /\ len bs = Z.max 0 m /\ Forall (fun v => 10 <= v <= benefit_max) bs
    /\ len ds = Z.max 0 n /\ Forall (fun v => 5 <= v <= dep_max) ds.
Proof.
  intros Hb Hd.
  destruct (for_list_randint 10 benefit_max Hb (range m) s0) as (bs & s1 & Eb & Lb & Fb).
  destruct (for_list_randint 5 dep_max Hd (range n) s1) as (ds & s2 & Ed & Ld & Fd).
  exists bs, ds, s1, s2. rewrite length_range in Lb, Ld. unfold len.
  repeat split; auto; lia.
Qed.

Lemma raise_variant_shape m n benefit_max dep_max sd s bs ds s1 s2 :
  for_list (range m) (fun _ => random_randint 10 benefit_max) (seeded sd s)
  = (Ok bs, [], s1) ->
  for_list (range n) (fun _ => random_randint 5 dep_max) s1 = (Ok ds, [], s2) ->
  exists ap s3,
    Permutation (GeradorDeInstancias.all_pairs m n) ap
    /\ forall ne b,
         GeradorDeInstancias.build m n ne b benefit_max dep_max sd s
         = if ne >? len ap
           then (Raise (ValueError "ne cannot exceed m*n"), [], s3)
           else (Ok {| inst_m := m; inst_n := n; inst_ne := ne; inst_b := b;
                       benefits := bs; deps := ds; pairs := slice_to ap ne |},
                 [], s3).
Proof.
  intros Eb Ed.
  destruct (shuffle_ok (GeradorDeInstancias.all_pairs m n) s2) as (ap & s3 & Es & P).
  exists ap, s3. split; [exact P|]. intros ne b.
  unfold GeradorDeInstancias.build.
  rewrite (bind_quiet _ _ _ _ _ (seed_step sd s)).
  rewrite (bind_quiet _ _ _ _ _ Eb).
  rewrite (bind_quiet _ _ _ _ _ Ed).
  rewrite (bind_quiet _ _ _ _ _ Es).
  now destruct (ne >? len ap).
Qed.

Lemma clamp_variant_shape m n benefit_max dep_max sd s bs ds s1 s2 :
  1 <= n ->
  for_list (range m) (fun _ => random_randint 10 benefit_max) (seeded sd s)
  = (Ok bs, [], s1) ->
  for_list (range n) (fun _ => random_randint 5 dep_max) s1 = (Ok ds, [], s2) ->
  exists S s3,
    InstanceGenerator.cover m n s2 = (Ok S, [], s3)
    /\ map fst S = range m /\ NoDup S /\ Forall (in_grid m n) S
    /\ len S = Z.max 0 m
    /\ forall fuel ne b,
         InstanceGenerator.build fuel m n ne b benefit_max dep_max sd s
         = (let '(r, t, s') := finish fuel m n (adjusted m n ne) b bs ds S s3 in
            (r, notices m n ne ++ t, s')).
Proof.
  intros Hn Eb Ed.
  destruct (cover_ok m n s2 Hn) as (S & s3 & Ec & Hfst & HS & Hg & LS).
  exists S, s3. split; [exact Ec|]. repeat (split; [assumption|]).
  split; [unfold len; lia|].
  intros fuel ne b. unfold InstanceGenerator.build.
  rewrite (bind_quiet _ _ _ _ _ (seed_step sd s)).
  rewrite (bind_ok _ _ _ _ _ _ (adjust_run m n ne (seeded sd s))).
  rewrite (bind_quiet _ _ _ _ _ Eb).
  rewrite (bind_quiet _ _ _ _ _ Ed).
  rewrite (bind_quiet _ _ _ _ _ Ec).
  reflexivity.
Qed.
End Shapes.

(** ** [gerador_de_instâncias.py]: one shuffled grid for every [ne] *)

Lemma len_grid m n : len (GeradorDeInstancias.all_pairs m n) = grid_size m n.
Proof. unfold len, grid_size. rewrite length_all_pairs. nia. Qed.

Lemma slice_to_nonneg {A : Type} (l : list A) k :
  0 <= k -> slice_to l k = firstn (Z.to_nat k) l.
Proof.
  intros H. unfold slice_to.
  now replace (k <? 0) with false by (symmetry; apply Z.ltb_ge; lia).
Qed.

Lemma slice_to_neg_len {A : Type} (l : list A) k :
  k < 0 -> len (slice_to l k) = Z.max 0 (len l + k).
Proof.
  intros H. unfold slice_to, len.
  replace (k <? 0) with true by (symmetry; apply Z.ltb_lt; lia).
  rewrite length_firstn. lia.
Qed.

Section OneGrid.
Context {RS : RandomSource}.

(** Whatever [ne] and [b], a run from a given state shuffles the same grid
    the same way; [ne] decides between refusal and a slice of it. *)
Lemma raise_variant_result m n benefit_max dep_max sd s :
  10 <= benefit_max -> 5 <= dep_max ->
  exists bs ds ap s3,
    Permutation (GeradorDeInstancias.all_pairs m n) ap
    /\ len ap = grid_size m n
    /\ forall ne b,
         GeradorDeInstancias.gen_instance m n ne b benefit_max dep_max sd s
         = if ne >? grid_size m n
           then (Raise (ValueError "ne cannot exceed m*n"), [], s3)
           else (Ok (render {| inst_m := m; inst_n := n; inst_ne := ne;
                               inst_b := b; benefits := bs; deps := ds;
                               pairs := slice_to ap ne |}),
                 [], s3).
Proof.
  intros Hb Hd.
  destruct (values_drawn m n benefit_max dep_max (seeded sd s) Hb Hd)
    as (bs & ds & s1 & s2 & Eb & Ed & _).
  destruct (raise_variant_shape m n benefit_max dep_max sd s bs ds s1 s2 Eb Ed)
    as (ap & s3 & P & Hrun).
  assert (L : len ap = grid_size m n).
  { rewrite <- len_grid. unfold len. now rewrite (Permutation_length P). }
  exists bs, ds, ap, s3. split; [exact P|]. split; [exact L|].
  intros ne b. specialize (Hrun ne b). rewrite L in Hrun.
  unfold GeradorDeInstancias.gen_instance.
  destruct (ne >? grid_size m n).
  - now apply bind_raise.
  - rewrite (bind_ok _ _ _ _ _ _ Hrun). reflexivity.
Qed.
End OneGrid.

(** X1. [gerador_de_instâncias.py] serves nested requests from one shuffle:
    from the same state of the random source, the pair lines for [ne] are
    the first [ne] pair lines for any larger [ne'], whatever the
    capacities. *)
Theorem raise_variant_nested {RS : RandomSource}
        m n ne ne' b b' benefit_max dep_max sd s :
  10 <= benefit_max -> 5 <= dep_max -> 0 <= ne <= ne' -> ne' <= grid_size m n ->
  exists text text' s',
    GeradorDeInstancias.gen_instance m n ne b benefit_max dep_max sd s
    = (Ok text, [], s')
    /\ GeradorDeInstancias.gen_instance m n ne' b' benefit_max dep_max sd s
       = (Ok text', [], s')
    /\ pair_lines text = firstn (Z.to_nat ne) (pair_lines text').
Proof.
  intros Hb Hd Hne Hne'.
  destruct (raise_variant_result m n benefit_max dep_max sd s Hb Hd)
    as (bs & ds & ap & s3 & _ & _ & Hrun).
  pose proof (Hrun ne b) as E. pose proof (Hrun ne' b') as E'.
  replace (ne >? grid_size m n) with false in E
    by (symmetry; rewrite Z.gtb_ltb; apply Z.ltb_ge; lia).
  replace (ne' >? grid_size m n) with false in E'
    by (symmetry; rewrite Z.gtb_ltb; apply Z.ltb_ge; lia).
  eexists _, _, s3. split; [exact E|]. split; [exact E'|].
  rewrite !pair_lines_render. simpl.
  rewrite !slice_to_nonneg by lia.
  rewrite <- firstn_map, <- firstn_map, firstn_firstn.
  f_equal. lia.
Qed.

Lemma raise_variant_nested_witness :
  exists text text' s',
    @GeradorDeInstancias.gen_instance counter_source 3 2 2 100 600 400 (Some 7) 0%nat
    = (Ok text, [], s')
    /\ @GeradorDeInstancias.gen_instance counter_source 3 2 5 (-1) 600 400 (Some 7) 0%nat
       = (Ok text', [], s')
    /\ pair_lines text = firstn (Z.to_nat 2) (pair_lines text').
Proof.
  apply (@raise_variant_nested counter_source 3 2 2 5 100 (-1) 600 400 (Some 7) 0%nat);
    unfold grid_size; lia.
Defined.

(** X2. Asked for as many pairs as the grid has, [gerador_de_instâncias.py]
    writes every pair of the grid exactly once. *)
Theorem raise_variant_whole_grid {RS : RandomSource}
        m n b benefit_max dep_max sd s :
  10 <= benefit_max -> 5 <= dep_max ->
  exists text s',
    GeradorDeInstancias.gen_instance m n (grid_size m n) b benefit_max dep_max sd s
    = (Ok text, [], s')
    /\ Permutation (map pair_line (GeradorDeInstancias.all_pairs m n))
                   (pair_lines text)
    /\ NoDup (pair_lines text).
Proof.
  intros Hb Hd.
  destruct (raise_variant_result m n benefit_max dep_max sd s Hb Hd)
    as (bs & ds & ap & s3 & P & L & Hrun).
  pose proof (Hrun (grid_size m n) b) as E.
  replace (grid_size m n >? grid_size m n) with false in E
    by (symmetry; rewrite Z.gtb_ltb; apply Z.ltb_ge; lia).
  eexists _, s3. split; [exact E|].
  rewrite pair_lines_render. simpl.
  assert (Hall : slice_to ap (grid_size m n) = ap).
  { rewrite slice_to_nonneg by (unfold grid_size; nia).
    apply firstn_all2. unfold len in L. lia. }
  rewrite Hall. split; [now apply Permutation_map|].
  apply Injective_map_NoDup; [intros x y; apply pair_line_inj|].
  apply (Permutation_NoDup P), NoDup_all_pairs.
Qed.

Lemma raise_variant_whole_grid_witness :
  exists text s',
    @GeradorDeInstancias.gen_instance counter_source 3 2 (grid_size 3 2) 100 600 400
      (Some 7) 0%nat
    = (Ok text, [], s')
    /\ Permutation (map pair_line (GeradorDeInstancias.all_pairs 3 2))
                   (pair_lines text)
    /\ NoDup (pair_lines text).
Proof.
  apply (@raise_variant_whole_grid counter_source 3 2 100 600 400 (Some 7) 0%nat); lia.
Defined.

(** X3. [gerador_de_instâncias.py] takes a negative [ne] as a slice bound
    counted from the end: it returns, the header carrying the negative [ne],
    with [len(all_pairs) + ne] pair lines (none when that is negative). *)
Theorem raise_variant_negative_ne {RS : RandomSource}
        m n ne b benefit_max dep_max sd s :
  10 <= benefit_max -> 5 <= dep_max -> ne < 0 ->
  exists text s',
    GeradorDeInstancias.gen_instance m n ne b benefit_max dep_max sd s
    = (Ok text, [], s')
    /\ nth 2 (header_fields text) "" = str ne
    /\ len (pair_lines text) = Z.max 0 (grid_size m n + ne).
Proof.
  intros Hb Hd Hne.
  destruct (raise_variant_result m n benefit_max dep_max sd s Hb Hd)
    as (bs & ds & ap & s3 & _ & L & Hrun).
  pose proof (Hrun ne b) as E.
  replace (ne >? grid_size m n) with false in E
    by (symmetry; rewrite Z.gtb_ltb; apply Z.ltb_ge; unfold grid_size; nia).
  eexists _, s3. split; [exact E|].
  rewrite header_fields_render, pair_lines_render, len_map. simpl.
  split; [reflexivity|]. now rewrite slice_to_neg_len, L.
Qed.

Lemma raise_variant_negative_ne_witness :
  exists text s',
    @GeradorDeInstancias.gen_instance counter_source 3 2 (-2) 100 600 400 (Some 7) 0%nat
    = (Ok text, [], s')
    /\ nth 2 (header_fields text) "" = str (-2)
    /\ len (pair_lines text) = Z.max 0 (grid_size 3 2 + -2).
Proof.
  apply (@raise_variant_negative_ne counter_source 3 2 (-2) 100 600 400 (Some 7) 0%nat);
    lia.
Defined.

Lemma missing_index (l : list Z) m :
  len l < m -> exists i, 0 <= i < m /\ ~ In i l.
Proof.
  intros Hlt.
  destruct (find (fun i => negb (existsb (Z.eqb i) l)) (range m)) as [i|] eqn:F.
  - apply find_some in F as [Hi Hn]. exists i. split; [now apply in_range|].
    intros Hin. apply negb_true_iff in Hn.
    assert (Ht : existsb (Z.eqb i) l = true)
      by (apply existsb_exists; exists i; split; [assumption | apply Z.eqb_refl]).
    congruence.
  - exfalso.
    assert (Hincl : incl (range m) l).
    { intros i Hi. pose proof (find_none _ _ F i Hi) as Hn.
      apply negb_false_iff, existsb_exists in Hn as (j & Hj & E).
      apply Z.eqb_eq in E. now subst j. }
    pose proof (NoDup_incl_length (NoDup_range m) Hincl) as L.
    rewrite length_range in L. unfold len in Hlt. lia.
Qed.

(** X4. [gerador_de_instâncias.py] does not look after coverage: when it
    is asked for fewer pairs than there are packages, the instance it
    returns leaves some package without any pair. *)
Theorem raise_variant_leaves_package_out {RS : RandomSource}
        m n ne b benefit_max dep_max sd s :
  10 <= benefit_max -> 5 <= dep_max ->
  0 <= ne -> ne < m -> ne <= grid_size m n ->
  exists text s' i,
    GeradorDeInstancias.gen_instance m n ne b benefit_max dep_max sd s
    = (Ok text, [], s')
    /\ 0 <= i < m
    /\ forall d, ~ In (pair_line (i, d)) (pair_lines text).
Proof.
  intros Hb Hd Hne Hm Hg.
  destruct (raise_variant_result m n benefit_max dep_max sd s Hb Hd)
    as (bs & ds & ap & s3 & _ & L & Hrun).
  pose proof (Hrun ne b) as E.
  replace (ne >? grid_size m n) with false in E
    by (symmetry; rewrite Z.gtb_ltb; apply Z.ltb_ge; lia).
  destruct (missing_index (map fst (slice_to ap ne)) m) as (i & Hi & Hout).
  { rewrite len_map, slice_to_len; lia. }
  eexists _, s3, i. split; [exact E|]. split; [exact Hi|].
  intros d Hin. rewrite pair_lines_render in Hin. simpl in Hin.
  apply in_map_iff in Hin as (q & Hq & Hin). apply pair_line_inj in Hq. subst q.
  apply Hout. change i with (fst (i, d)). now apply in_map.
Qed.

Lemma raise_variant_leaves_package_out_witness :
  exists text s' i,
    @GeradorDeInstancias.gen_instance counter_source 3 2 2 100 600 400 (Some 7) 0%nat
    = (Ok text, [], s')
    /\ 0 <= i < 3
    /\ forall d, ~ In (pair_line (i, d)) (pair_lines text).
Proof.
  apply (@raise_variant_leaves_package_out counter_source
           3 2 2 100 600 400 (Some 7) 0%nat); unfold grid_size; lia.
Defined.

(** X5. The bound that [gerador_de_instâncias.py] enforces is the number
    of pairs it enumerated, [max(m, 0) * max(n, 0)], not the product [m*n]:
    it raises exactly when [ne] exceeds that number, so with two negative
    sizes every positive [ne] is refused, also below [m*n]. *)
Theorem raise_variant_bound_is_grid_size {RS : RandomSource}
        m n ne b benefit_max dep_max sd s :
  10 <= benefit_max -> 5 <= dep_max ->
  (grid_size m n < ne ->
     exists s',
       GeradorDeInstancias.gen_instance m n ne b benefit_max dep_max sd s
       = (Raise (ValueError "ne cannot exceed m*n"), [], s'))
  /\
  (ne <= grid_size m n ->
     exists text s',
       GeradorDeInstancias.gen_instance m n ne b benefit_max dep_max sd s
       = (Ok text, [], s'))
  /\
  (m < 0 -> n < 0 -> grid_size m n = 0 /\ 0 < m * n).
Proof.
  intros Hb Hd.
  destruct (raise_variant_result m n benefit_max dep_max sd s Hb Hd)
    as (bs & ds & ap & s3 & _ & _ & Hrun).
  pose proof (Hrun ne b) as E.
  split; [|split].
  - intros H. exists s3.
    now replace (ne >? grid_size m n) with true in E
      by (symmetry; rewrite Z.gtb_ltb; apply Z.ltb_lt; lia).
  - intros H. eexists _, s3.
    replace (ne >? grid_size m n) with false in E
      by (symmetry; rewrite Z.gtb_ltb; apply Z.ltb_ge; lia).
    exact E.
  - intros Hm Hn. unfold grid_size. split; nia.
Qed.

Lemma raise_variant_bound_is_grid_size_witness :
  (exists s',
      @GeradorDeInstancias.gen_instance counter_source (-2) (-3) 3 100 600 400 (Some 7) 0%nat
      = (Raise (ValueError "ne cannot exceed m*n"), [], s'))
  /\ 3 <= -2 * -3.
Proof.
  split; [|lia].
  apply (@raise_variant_bound_is_grid_size counter_source
           (-2) (-3) 3 100 600 400 (Some 7) 0%nat); unfold grid_size; lia.
Defined.

(** ** [instance_generator.py]: the rejection loop without fairness *)

Section Loop.
Context {RS : RandomSource}.
Import InstanceGenerator.

Lemma randint_Some_range a b s v s' :
  randint a b s = Some (v, s') -> a <= v <= b.
Proof.
  intros H. destruct (Z_lt_ge_dec b a) as [Hlt|Hge].
  - rewrite (randint_empty a b s Hlt) in H. discriminate.
  - destruct (randint_range a b s ltac:(lia)) as (v0 & s0 & E & Hv).
    rewrite E in H. now injection H as <- _.
Qed.

Lemma fill_step_inv fuel m n ne S s S' t s' :
  len S < ne ->
  fill (Datatypes.S fuel) m n ne S s = (Ok S', t, s') ->
  exists q s1, draw_pair m n s = Some (q, s1) /\ in_grid m n q
               /\ fill fuel m n ne (set_add q S) s1 = (Ok S', t, s').
Proof.
  intros Hlt H. apply Z.ltb_lt in Hlt as Hc. simpl in H. rewrite Hc in H.
  apply bind_Ok_inv in H as (p & t1 & s1 & t2 & Hp & H & ->).
  apply bind_Ok_inv in H as (d & t3 & s2 & t4 & Hd & H & ->).
  apply randint_Ok_inv in Hp as [Hp ->]. apply randint_Ok_inv in Hd as [Hd ->].
  exists (p, d), s2. unfold draw_pair. rewrite Hp, Hd. split; [reflexivity|].
  split; [|exact H].
  apply randint_Some_range in Hp, Hd. unfold in_grid. simpl. lia.
Qed.

(** What a finished loop guarantees, whatever the source. *)
Lemma fill_Ok_inv m n ne : forall fuel S s S' t s',
  fill fuel m n ne S s = (Ok S', t, s') ->
  t = [] /\ incl S S' /\ (NoDup S -> NoDup S')
  /\ (Forall (in_grid m n) S -> Forall (in_grid m n) S')
  /\ ne <= len S' /\ (len S <= ne -> len S' = ne).
Proof.
  induction fuel as [|fuel IH]; intros S s S' t s' H.
  - simpl in H. destruct (Z.ltb_spec (len S) ne); [discriminate|].
    injection H as <- <- <-. repeat split; auto using incl_refl; lia.
  - destruct (Z.ltb_spec (len S) ne) as [Hlt|Hge].
    + apply (fill_step_inv _ _ _ _ _ _ _ _ _ Hlt) in H as (q & s1 & Hq & Hg & H).
      apply IH in H as (-> & Hincl & Hnd & Hgrid & Hle & Hlen).
      split; [reflexivity|]. split; [|split; [|split; [|split]]].
      * intros x Hx. apply Hincl, set_add_in. now right.
      * intros HS. now apply Hnd, set_add_NoDup.
      * intros HS. apply Hgrid. unfold set_add. destruct (mem q S); [assumption|].
        apply Forall_app. split; [assumption | now constructor].
      * exact Hle.
      * intros _. apply Hlen. rewrite set_add_len. destruct (mem q S); lia.
    + rewrite fill_done in H by lia. injection H as <- <- <-.
      repeat split; auto using incl_refl; lia.
Qed.

(** With sizes of at least one the loop never raises: it returns or is
    still running when the bound is reached. *)
Lemma fill_safe m n ne : 1 <= m -> 1 <= n ->
  forall fuel S s,
    (exists s', fill fuel m n ne S s = (OutOfFuel, [], s'))
    \/ (exists S' s', fill fuel m n ne S s = (Ok S', [], s')).
Proof.
  intros Hm Hn. induction fuel as [|fuel IH]; intros S s.
  - simpl. destruct (len S <? ne); [left; now exists s | right; now exists S, s].
  - destruct (Z.ltb_spec (len S) ne) as [Hlt|Hge].
    + destruct (randint_range 0 (m - 1) s ltac:(lia)) as (p & s1 & Ep & _).
      destruct (randint_range 0 (n - 1) s1 ltac:(lia)) as (d & s2 & Ed & _).
      assert (Hdraw : draw_pair m n s = Some ((p, d), s2))
        by (unfold draw_pair; now rewrite Ep, Ed).
      rewrite (fill_draw _ _ _ _ _ _ _ _ Hlt Hdraw). apply IH.
    + right. exists S, s. now rewrite fill_done by lia.
Qed.

(** A loop that reaches [ne'] pairs has reached every smaller [ne] on its
    way, with part of the same pairs. *)
Lemma fill_prefix m n ne ne' : ne <= ne' ->
  forall fuel S s S2 t s2,
    fill fuel m n ne' S s = (Ok S2, t, s2) ->
    exists S1 s1,
      (forall fuel', (fuel <= fuel')%nat -> fill fuel' m n ne S s = (Ok S1, [], s1))
      /\ incl S1 S2.
Proof.
  intros Hle. induction fuel as [|fuel IH]; intros S s S2 t s2 H.
  - simpl in H. destruct (Z.ltb_spec (len S) ne'); [discriminate|].
    injection H as <- <- <-. exists S, s. split; [|apply incl_refl].
    intros fuel' _. now rewrite fill_done by lia.
  - destruct (Z.ltb_spec (len S) ne) as [Hlt|Hge].
    + assert (Hlt' : len S < ne') by lia.
      apply (fill_step_inv _ _ _ _ _ _ _ _ _ Hlt') in H as (q & s1 & Hq & _ & H).
      destruct (IH _ _ _ _ _ H) as (S1 & s3 & Hrun & Hincl).
      exists S1, s3. split; [|exact Hincl].
      intros [|fuel'] Hf; [lia|].
      rewrite (fill_draw _ _ _ _ _ _ _ _ Hlt Hq). apply Hrun. lia.
    + exists S, s. split.
      * intros fuel' _. now rewrite fill_done by lia.
      * now apply fill_Ok_inv in H as (_ & Hincl & _).
Qed.
End Loop.

Section ClampRuns.
Context {RS : RandomSource} {SI : SetIteration}.

Lemma finish_total fuel m n ne b bs ds S s S' s1 :
  (forall fuel', (fuel <= fuel')%nat ->
     InstanceGenerator.fill fuel' m n ne S s = (Ok S', [], s1)) ->
  exists ps s',
    Permutation S' ps
    /\ forall fuel', (fuel <= fuel')%nat ->
         finish fuel' m n ne b bs ds S s
         = (Ok {| inst_m := m; inst_n := n; inst_ne := ne; inst_b := b;
                  benefits := bs; deps := ds; pairs := ps |}, [], s').
Proof.
  intros Hfill.
  destruct (shuffle_ok (iteration_order S') s1) as (ps & s' & Es & P).
  exists ps, s'. split.
  - eapply Permutation_trans; [apply iteration_order_perm | exact P].
  - intros fuel' Hle. unfold finish.
    rewrite (bind_quiet _ _ _ _ _ (Hfill fuel' Hle)).
    now rewrite (bind_quiet _ _ _ _ _ Es).
Qed.

Lemma clamp_text_of_finish fuel m n ne b benefit_max dep_max sd s bs ds S s3 I s' :
  InstanceGenerator.build fuel m n ne b benefit_max dep_max sd s
  = (let '(r, t, s') := finish fuel m n (adjusted m n ne) b bs ds S s3 in
     (r, notices m n ne ++ t, s')) ->
  finish fuel m n (adjusted m n ne) b bs ds S s3 = (Ok I, [], s') ->
  InstanceGenerator.gen_instance fuel m n ne b benefit_max dep_max sd s
  = (Ok (render I), notices m n ne, s').
Proof.
  intros Hrun Hfin. apply clamp_text. rewrite Hrun, Hfin. now rewrite app_nil_r.
Qed.

(** The run of [instance_generator.py] under a fair source, with the values
    drawn and the coverage set made explicit: they are the same for every
    [ne] and [b]. *)
Lemma clamp_variant_total m n benefit_max dep_max sd s bs ds s1 s2 :
  1 <= m -> 1 <= n -> fair m n ->
  for_list (range m) (fun _ => random_randint 10 benefit_max) (seeded sd s)
  = (Ok bs, [], s1) ->
  for_list (range n) (fun _ => random_randint 5 dep_max) s1 = (Ok ds, [], s2) ->
  exists S,
    map fst S = range m
    /\ forall ne b, exists fuel ps s',
         (forall fuel', (fuel <= fuel')%nat ->
            InstanceGenerator.gen_instance fuel' m n ne b benefit_max dep_max sd s
            = (Ok (render {| inst_m := m; inst_n := n;
                             inst_ne := adjusted m n ne; inst_b := b;
                             benefits := bs; deps := ds; pairs := ps |}),
               notices m n ne, s'))
         /\ NoDup ps /\ Forall (in_grid m n) ps
         /\ len ps = adjusted m n ne /\ incl S ps.
Proof.
  intros Hm Hn Hfair Eb Ed.
  destruct (clamp_variant_shape m n benefit_max dep_max sd s bs ds s1 s2 Hn Eb Ed)
    as (S & s3 & _ & Hfst & HS & Hg & LS & Hrun).
  exists S. split; [exact Hfst|]. intros ne b.
  pose proof (adjusted_bounds m n ne Hm Hn) as Hadj.
  destruct (fill_total m n (adjusted m n ne) Hm Hn ltac:(lia) Hfair _ S s3
              eq_refl HS Hg)
    as (fuel & S' & s4 & Hfill & HS' & Hg' & Hincl & Hlen).
  destruct (finish_total fuel m n (adjusted m n ne) b bs ds S s3 S' s4 Hfill)
    as (ps & s' & P & Hfin).
  exists fuel, ps, s'. split; [|split; [|split; [|split]]].
  - intros fuel' Hle.
    exact (clamp_text_of_finish _ _ _ _ _ _ _ _ _ _ _ _ _ _ _
             (Hrun fuel' ne b) (Hfin fuel' Hle)).
  - exact (Permutation_NoDup P HS').
  - exact (Permutation_Forall P Hg').
  - unfold len in *. rewrite <- (Permutation_length P). apply Hlen. lia.
  - intros q Hq. apply (Permutation_in _ P). now apply Hincl.
Qed.
End ClampRuns.

(** X6. Asked for at least as many pairs as the grid has,
    [instance_generator.py] writes every pair of the grid exactly once
    (after the notice, when [ne] is larger than [m*n]). *)
Theorem clamp_variant_whole_grid {RS : RandomSource} {SI : SetIteration}
        m n ne b benefit_max dep_max sd s :
  1 <= m -> 1 <= n -> 10 <= benefit_max -> 5 <= dep_max -> fair m n ->
  m * n <= ne ->
  exists fuel text s',
    (forall fuel', (fuel <= fuel')%nat ->
       InstanceGenerator.gen_instance fuel' m n ne b benefit_max dep_max sd s
       = (Ok text, notices m n ne, s'))
    /\ Permutation (map pair_line (GeradorDeInstancias.all_pairs m n))
                   (pair_lines text)
    /\ NoDup (pair_lines text).
Proof.
  intros Hm Hn Hb Hd Hfair Hne.
  destruct (values_drawn m n benefit_max dep_max (seeded sd s) Hb Hd)
    as (bs & ds & s1 & s2 & Eb & Ed & _).
  destruct (clamp_variant_total m n benefit_max dep_max sd s bs ds s1 s2
              Hm Hn Hfair Eb Ed) as (S & _ & Hrun).
  destruct (Hrun ne b) as (fuel & ps & s' & E & Hnd & Hg & Hl & _).
  assert (Ha : adjusted m n ne = m * n).
  { unfold adjusted. destruct (Z.ltb_spec ne m); [nia|].
    destruct (Z.gtb_spec ne (m * n)); lia. }
  eexists fuel, _, s'. split; [exact E|].
  rewrite pair_lines_render. simpl.
  assert (P : Permutation (GeradorDeInstancias.all_pairs m n) ps).
  { apply Permutation_sym, NoDup_Permutation_bis; [exact Hnd| |].
    - unfold len in Hl. rewrite length_all_pairs. nia.
    - intros q Hq. apply in_all_pairs. rewrite Forall_forall in Hg. now apply Hg. }
  split; [now apply Permutation_map|].
  apply Injective_map_NoDup; [intros x y; apply pair_line_inj | exact Hnd].
Qed.

Lemma clamp_variant_whole_grid_witness :
  exists fuel text s',
    (forall fuel', (fuel <= fuel')%nat ->
       @InstanceGenerator.gen_instance counter_source insertion_order
         fuel' 3 2 10 100 600 400 (Some 7) 0%nat
       = (Ok text, notices 3 2 10, s'))
    /\ Permutation (map pair_line (GeradorDeInstancias.all_pairs 3 2))
                   (pair_lines text)
    /\ NoDup (pair_lines text).
Proof.
  apply (@clamp_variant_whole_grid counter_source insertion_order
           3 2 10 100 600 400 (Some 7) 0%nat); try lia.
  apply counter_fair; lia.
Defined.

Section Adjusting.
Context {RS : RandomSource} {SI : SetIteration}.

Lemma clamp_text_of_build fuel m n ne b benefit_max dep_max sd s r t s' :
  InstanceGenerator.build fuel m n ne b benefit_max dep_max sd s = (r, t, s') ->
  InstanceGenerator.gen_instance fuel m n ne b benefit_max dep_max sd s
  = (match r with
     | Ok inst => Ok (render inst)
     | Raise e => Raise e
     | OutOfFuel => OutOfFuel
     end, t, s').
Proof.
  intros H. unfold InstanceGenerator.gen_instance, bind. rewrite H.
  destruct r; simpl; [now rewrite app_nil_r | reflexivity | reflexivity].
Qed.

Lemma build_after_adjust fuel m n ne ne' b benefit_max dep_max sd s :
  adjusted m n ne = adjusted m n ne' ->
  exists r t s',
    InstanceGenerator.build fuel m n ne b benefit_max dep_max sd s
    = (r, notices m n ne ++ t, s')
    /\ InstanceGenerator.build fuel m n ne' b benefit_max dep_max sd s
       = (r, notices m n ne' ++ t, s').
Proof.
  intros Ha. unfold InstanceGenerator.build.
  rewrite !(bind_quiet _ _ _ _ _ (seed_step sd s)).
  rewrite (bind_ok _ _ _ _ _ _ (adjust_run m n ne (seeded sd s))).
  rewrite (bind_ok _ _ _ _ _ _ (adjust_run m n ne' (seeded sd s))).
  rewrite Ha.
  match goal with
  | |- context [bind ?c ?k (seeded sd s)] =>
      destruct (bind c k (seeded sd s)) as [[r t] s']
  end.
  now exists r, t, s'.
Qed.
End Adjusting.

(** X7. In [instance_generator.py] a request matters only through the
    value it is adjusted to: two calls whose [ne] are adjusted to the same
    value (every [ne < m]; every [ne > m*n]) return the same text and leave
    the random source in the same state; they differ in the notice
    printed. *)
Theorem clamp_variant_same_after_adjust {RS : RandomSource} {SI : SetIteration}
        fuel m n ne ne' b benefit_max dep_max sd s :
  adjusted m n ne = adjusted m n ne' ->
  result (InstanceGenerator.gen_instance fuel m n ne b benefit_max dep_max sd s)
  = result (InstanceGenerator.gen_instance fuel m n ne' b benefit_max dep_max sd s)
  /\ snd (InstanceGenerator.gen_instance fuel m n ne b benefit_max dep_max sd s)
     = snd (InstanceGenerator.gen_instance fuel m n ne' b benefit_max dep_max sd s).
Proof.
  intros Ha.
  destruct (build_after_adjust fuel m n ne ne' b benefit_max dep_max sd s Ha)
    as (r & t & s' & E & E').
  rewrite (clamp_text_of_build _ _ _ _ _ _ _ _ _ _ _ _ E).
  rewrite (clamp_text_of_build _ _ _ _ _ _ _ _ _ _ _ _ E').
  split; reflexivity.
Qed.

Lemma clamp_variant_same_after_adjust_witness :
  result (@InstanceGenerator.gen_instance counter_source insertion_order
            9 3 2 (-4) 100 600 400 (Some 7) 0%nat)
  = result (@InstanceGenerator.gen_instance counter_source insertion_order
              9 3 2 2 100 600 400 (Some 7) 0%nat)
  /\ snd (@InstanceGenerator.gen_instance counter_source insertion_order
            9 3 2 (-4) 100 600 400 (Some 7) 0%nat)
     = snd (@InstanceGenerator.gen_instance counter_source insertion_order
              9 3 2 2 100 600 400 (Some 7) 0%nat).
Proof.
  apply (@clamp_variant_same_after_adjust counter_source insertion_order
           9 3 2 (-4) 2 100 600 400 (Some 7) 0%nat).
  reflexivity.
Defined.

(** X8. Whatever the random source does, [instance_generator.py] never
    raises on sizes of at least one and never returns a malformed instance:
    a run bounded to [fuel] iterations of the rejection loop is either
    still in the loop, or has returned a text laid out for the adjusted
    [ne], with distinct pairs of the grid that cover every package. *)
Theorem clamp_variant_never_raises {RS : RandomSource} {SI : SetIteration}
        fuel m n ne b benefit_max dep_max sd s :
  1 <= m -> 1 <= n -> 10 <= benefit_max -> 5 <= dep_max ->
  (exists s',
      InstanceGenerator.gen_instance fuel m n ne b benefit_max dep_max sd s
      = (OutOfFuel, notices m n ne, s'))
  \/
  (exists text ps s',
      InstanceGenerator.gen_instance fuel m n ne b benefit_max dep_max sd s
      = (Ok text, notices m n ne, s')
      /\ laid_out m n (adjusted m n ne) b text
      /\ pair_lines text = map pair_line ps
      /\ NoDup ps /\ Forall (in_grid m n) ps
      /\ incl (range m) (map fst ps)).
Proof.
  intros Hm Hn Hb Hd.
  destruct (values_drawn m n benefit_max dep_max (seeded sd s) Hb Hd)
    as (bs & ds & s1 & s2 & Eb & Ed & Lb & _ & Ld & _).
  destruct (clamp_variant_shape m n benefit_max dep_max sd s bs ds s1 s2 Hn Eb Ed)
    as (S & s3 & _ & Hfst & HS & Hg & LS & Hrun).
  specialize (Hrun fuel ne b).
  pose proof (adjusted_bounds m n ne Hm Hn) as Hadj.
  destruct (fill_safe m n (adjusted m n ne) Hm Hn fuel S s3)
    as [(s' & Hf)|(S' & s' & Hf)].
  - left. exists s'.
    assert (Hfin : finish fuel m n (adjusted m n ne) b bs ds S s3
                   = (OutOfFuel, [], s'))
      by (unfold finish, bind; now rewrite Hf).
    rewrite Hfin, app_nil_r in Hrun.
    exact (clamp_text_of_build _ _ _ _ _ _ _ _ _ _ _ _ Hrun).
  - right.
    destruct (fill_Ok_inv _ _ _ _ _ _ _ _ _ Hf) as (_ & Hincl & Hnd & Hgrid & _ & Hlen).
    destruct (finish_run fuel m n (adjusted m n ne) b bs ds S s3 S' s' Hf)
      as (ps & s4 & Hfin & P).
    eexists _, ps, s4.
    split; [exact (clamp_text_of_finish _ _ _ _ _ _ _ _ _ _ _ _ _ _ _ Hrun Hfin)|].
    split; [|split; [apply pair_lines_render | split; [|split]]].
    + apply (render_laid_out
               {| inst_m := m; inst_n := n; inst_ne := adjusted m n ne;
                  inst_b := b; benefits := bs; deps := ds; pairs := ps |});
        simpl; try lia.
      unfold len in *. rewrite <- (Permutation_length P). apply Hlen. lia.
    + exact (Permutation_NoDup P (Hnd HS)).
    + exact (Permutation_Forall P (Hgrid Hg)).
    + intros i Hi. rewrite <- Hfst in Hi.
      apply in_map_iff in Hi as (q & <- & Hq). apply in_map.
      apply (Permutation_in _ P). now apply Hincl.
Qed.

Lemma clamp_variant_never_raises_witness :
  (exists s',
      @InstanceGenerator.gen_instance counter_source insertion_order
        1 3 2 5 100 600 400 (Some 7) 0%nat
      = (OutOfFuel, notices 3 2 5, s'))
  \/
  (exists text ps s',
      @InstanceGenerator.gen_instance counter_source insertion_order
        1 3 2 5 100 600 400 (Some 7) 0%nat
      = (Ok text, notices 3 2 5, s')
      /\ laid_out 3 2 (adjusted 3 2 5) 100 text
      /\ pair_lines text = map pair_line ps
      /\ NoDup ps /\ Forall (in_grid 3 2) ps
      /\ incl (range 3) (map fst ps)).
Proof.
  apply (@clamp_variant_never_raises counter_source insertion_order
           1%nat 3 2 5 100 600 400 (Some 7) 0%nat); lia.
Defined.

(** X10. In [instance_generator.py] a larger request only adds pairs: from
    the same state of the random source, every pair line written for [ne]
    is also written for any [ne' >= ne]. *)
Theorem clamp_variant_grows {RS : RandomSource} {SI : SetIteration}
        m n ne ne' b b' benefit_max dep_max sd s :
  1 <= m -> 1 <= n -> 10 <= benefit_max -> 5 <= dep_max -> fair m n ->
  ne <= ne' ->
  exists fuel text text' s1 s2,
    (forall fuel', (fuel <= fuel')%nat ->
       InstanceGenerator.gen_instance fuel' m n ne b benefit_max dep_max sd s
       = (Ok text, notices m n ne, s1)
       /\ InstanceGenerator.gen_instance fuel' m n ne' b' benefit_max dep_max sd s
          = (Ok text', notices m n ne', s2))
    /\ incl (pair_lines text) (pair_lines text').
Proof.
  intros Hm Hn Hb Hd Hfair Hle.
  destruct (values_drawn m n benefit_max dep_max (seeded sd s) Hb Hd)
    as (bs & ds & s1 & s2 & Eb & Ed & _).
  destruct (clamp_variant_shape m n benefit_max dep_max sd s bs ds s1 s2 Hn Eb Ed)
    as (S & s3 & _ & Hfst & HS & Hg & LS & Hrun).
  pose proof (adjusted_bounds m n ne Hm Hn) as Hadj.
  pose proof (adjusted_bounds m n ne' Hm Hn) as Hadj'.
  assert (Hmono : adjusted m n ne <= adjusted m n ne').
  { unfold adjusted in *.
    destruct (Z.ltb_spec ne m), (Z.ltb_spec ne' m); try lia;
      destruct (Z.gtb_spec ne (m * n)), (Z.gtb_spec ne' (m * n)); lia. }
  destruct (fill_total m n (adjusted m n ne') Hm Hn ltac:(lia) Hfair _ S s3
              eq_refl HS Hg)
    as (fuel & S2 & s4 & Hfill2 & _).
  destruct (fill_prefix m n _ _ Hmono fuel S s3 S2 [] s4 (Hfill2 fuel (Nat.le_refl _)))
    as (S1 & s5 & Hfill1 & Hincl).
  destruct (finish_total fuel m n (adjusted m n ne) b bs ds S s3 S1 s5 Hfill1)
    as (ps1 & s6 & P1 & Hfin1).
  destruct (finish_total fuel m n (adjusted m n ne') b' bs ds S s3 S2 s4 Hfill2)
    as (ps2 & s7 & P2 & Hfin2).
  eexists fuel, _, _, s6, s7. split.
  - intros fuel' Hf. split.
    + exact (clamp_text_of_finish _ _ _ _ _ _ _ _ _ _ _ _ _ _ _
               (Hrun fuel' ne b) (Hfin1 fuel' Hf)).
    + exact (clamp_text_of_finish _ _ _ _ _ _ _ _ _ _ _ _ _ _ _
               (Hrun fuel' ne' b') (Hfin2 fuel' Hf)).
  - rewrite !pair_lines_render. simpl. apply incl_map.
    intros q Hq. apply (Permutation_in _ P2), Hincl.
    exact (Permutation_in _ (Permutation_sym P1) Hq).
Qed.

Lemma clamp_variant_grows_witness :
  exists fuel text text' s1 s2,
    (forall fuel', (fuel <= fuel')%nat ->
       @InstanceGenerator.gen_instance counter_source insertion_order
         fuel' 3 2 3 100 600 400 (Some 7) 0%nat
       = (Ok text, notices 3 2 3, s1)
       /\ @InstanceGenerator.gen_instance counter_source insertion_order
            fuel' 3 2 5 (-1) 600 400 (Some 7) 0%nat
          = (Ok text', notices 3 2 5, s2))
    /\ incl (pair_lines text) (pair_lines text').
Proof.
  apply (@clamp_variant_grows counter_source insertion_order
           3 2 3 5 100 (-1) 600 400 (Some 7) 0%nat); try lia.
  apply counter_fair; lia.
Defined.

(** ** [instance_generator.py] on a source that is not fair *)

Lemma cover_keeps {RS : RandomSource} n (xs : list Z) :
  forall acc s S t s',
    for_fold xs
      (fun pairs_set i =>
         j <- random_randint 0 (n - 1) ;; ret (set_add (i, j) pairs_set))
      acc s = (Ok S, t, s') ->
    incl acc S.
Proof.
  induction xs as [|i xs IH]; intros acc s S t s' H; simpl in H.
  - injection H as <- _ _. apply incl_refl.
  - apply bind_Ok_inv in H as (acc1 & t1 & s1 & t2 & H1 & H2 & _).
    apply bind_Ok_inv in H1 as (j & t3 & s2 & t4 & _ & H1 & _).
    injection H1 as <- _ _.
    intros q Hq. apply (IH _ _ _ _ _ H2), set_add_in. now right.
Qed.

Lemma stuck_randint b s : 0 <= b -> @randint stuck_source 0 b s = Some (0, s).
Proof.
  intros Hb. simpl. unfold randbelow_randint.
  now replace (0 <? b + 1 - 0) with true by (symmetry; apply Z.ltb_lt; lia).
Qed.

Lemma stuck_draw m n s : 1 <= m -> 1 <= n ->
  @draw_pair stuck_source m n s = Some ((0, 0), s).
Proof.
  intros Hm Hn. unfold draw_pair.
  now rewrite (stuck_randint (m - 1) s), (stuck_randint (n - 1) s) by lia.
Qed.

Lemma stuck_cover m n s S t s' : 1 <= m -> 1 <= n ->
  @InstanceGenerator.cover stuck_source m n s = (Ok S, t, s') -> In (0, 0) S.
Proof.
  intros Hm Hn H. unfold InstanceGenerator.cover in H.
  destruct (range_cons m Hm) as (xs & Hxs). rewrite Hxs in H. simpl in H.
  apply (@bind_Ok_inv stuck_source) in H as (acc & t1 & s1 & t2 & H1 & H2 & _).
  apply (@bind_Ok_inv stuck_source) in H1 as (j & t3 & s2 & t4 & Hj & H1 & _).
  apply (@randint_Ok_inv stuck_source) in Hj as [Hj _].
  rewrite stuck_randint in Hj by lia. injection Hj as <- _.
  injection H1 as <- _ _.
  apply (cover_keeps n xs _ _ _ _ _ H2). now left.
Qed.

Lemma stuck_fill m n ne S : 1 <= m -> 1 <= n -> In (0, 0) S -> len S < ne ->
  forall fuel s,
    @InstanceGenerator.fill stuck_source fuel m n ne S s = (OutOfFuel, [], s).
Proof.
  intros Hm Hn Hin Hlt. induction fuel as [|fuel IH]; intros s.
  - simpl. now replace (len S <? ne) with true by (symmetry; apply Z.ltb_lt; lia).
  - rewrite (fill_draw _ _ _ _ _ _ _ _ Hlt (stuck_draw m n s Hm Hn)).
    unfold set_add. apply mem_true in Hin. rewrite Hin. apply IH.
Qed.

(** X9. The rejection loop of [instance_generator.py] has no bound of its
    own.  On a random source that keeps the laws of [randint] and [shuffle]
    but always yields the least value, a call that needs more pairs than
    the [m] of the coverage step never returns: whatever the number of
    iterations allowed, it is still in the loop. *)
Theorem clamp_variant_loops_on_stuck_source {SI : SetIteration}
        fuel m n ne b benefit_max dep_max sd s :
  1 <= m -> 2 <= n -> m < ne -> 10 <= benefit_max -> 5 <= dep_max ->
  exists s',
    @InstanceGenerator.gen_instance stuck_source SI
      fuel m n ne b benefit_max dep_max sd s
    = (OutOfFuel, notices m n ne, s').
Proof.
  intros Hm Hn Hne Hb Hd.
  destruct (@values_drawn stuck_source m n benefit_max dep_max (seeded sd s) Hb Hd)
    as (bs & ds & s1 & s2 & Eb & Ed & _).
  destruct (@clamp_variant_shape stuck_source SI
              m n benefit_max dep_max sd s bs ds s1 s2 ltac:(lia) Eb Ed)
    as (S & s3 & Ec & _ & _ & _ & LS & Hrun).
  specialize (Hrun fuel ne b).
  assert (Ha : m < adjusted m n ne).
  { unfold adjusted. destruct (Z.ltb_spec ne m); [lia|].
    destruct (Z.gtb_spec ne (m * n)); nia. }
  pose proof (stuck_cover m n s2 S [] s3 Hm ltac:(lia) Ec) as Hin.
  pose proof (stuck_fill m n (adjusted m n ne) S Hm ltac:(lia) Hin ltac:(lia) fuel s3)
    as Hf.
  exists s3.
  assert (Hfin : @finish stuck_source SI fuel m n (adjusted m n ne) b bs ds S s3
                 = (OutOfFuel, [], s3))
    by (unfold finish, bind; now rewrite Hf).
  rewrite Hfin, app_nil_r in Hrun.
  exact (clamp_text_of_build _ _ _ _ _ _ _ _ _ _ _ _ Hrun).
Qed.

Lemma clamp_variant_loops_on_stuck_source_witness :
  exists s',
    @InstanceGenerator.gen_instance stuck_source insertion_order
      1000 3 2 4 100 600 400 (Some 7) tt
    = (OutOfFuel, notices 3 2 4, s').
Proof.
  apply (@clamp_variant_loops_on_stuck_source insertion_order
           1000%nat 3 2 4 100 600 400 (Some 7) tt); lia.
Defined.

(** X11. The benefit and weight lines depend on the sizes, the sampling
    bounds and the state of the random source only: from the same state
    both scripts write the same two lines, for every [ne] and [b] they
    accept. *)
Theorem value_lines_shared {RS : RandomSource} {SI : SetIteration}
        m n benefit_max dep_max sd s :
  1 <= m -> 1 <= n -> 10 <= benefit_max -> 5 <= dep_max ->
  exists benefit_line weight_line,
    (forall ne b, ne <= m * n ->
       exists text s',
         GeradorDeInstancias.gen_instance m n ne b benefit_max dep_max sd s
         = (Ok text, [], s')
         /\ nth 1 (text_lines text) "" = benefit_line
         /\ nth 2 (text_lines text) "" = weight_line)
    /\
    (fair m n ->
     forall ne b,
       exists fuel text s',
         (forall fuel', (fuel <= fuel')%nat ->
            InstanceGenerator.gen_instance fuel' m n ne b benefit_max dep_max sd s
            = (Ok text, notices m n ne, s'))
         /\ nth 1 (text_lines text) "" = benefit_line
         /\ nth 2 (text_lines text) "" = weight_line).
Proof.
  intros Hm Hn Hb Hd.
  destruct (values_drawn m n benefit_max dep_max (seeded sd s) Hb Hd)
    as (bs & ds & s1 & s2 & Eb & Ed & _).
  exists (values_line bs), (values_line ds). split.
  - intros ne b Hne.
    destruct (raise_variant_shape m n benefit_max dep_max sd s bs ds s1 s2 Eb Ed)
      as (ap & s3 & P & Hrun).
    specialize (Hrun ne b).
    assert (L : len ap = m * n).
    { unfold len. rewrite <- (Permutation_length P). apply len_all_pairs; lia. }
    replace (ne >? len ap) with false in Hrun
      by (symmetry; rewrite Z.gtb_ltb; apply Z.ltb_ge; lia).
    eexists _, s3. split; [exact (raise_text _ _ _ _ _ _ _ _ _ _ _ Hrun)|].
    rewrite text_lines_render. split; reflexivity.
  - intros Hfair ne b.
    destruct (clamp_variant_total m n benefit_max dep_max sd s bs ds s1 s2
                Hm Hn Hfair Eb Ed) as (S & _ & Hrun).
    destruct (Hrun ne b) as (fuel & ps & s' & E & _).
    eexists fuel, _, s'. split; [exact E|].
    rewrite text_lines_render. split; reflexivity.
Qed.

Lemma value_lines_shared_witness :
  exists benefit_line weight_line,
    (exists text s',
        @GeradorDeInstancias.gen_instance counter_source 3 2 1 100 600 400 (Some 7) 0%nat
        = (Ok text, [], s')
        /\ nth 1 (text_lines text) "" = benefit_line
        /\ nth 2 (text_lines text) "" = weight_line)
    /\
    (exists fuel text s',
        (forall fuel', (fuel <= fuel')%nat ->
           @InstanceGenerator.gen_instance counter_source insertion_order
             fuel' 3 2 5 (-1) 600 400 (Some 7) 0%nat
           = (Ok text, notices 3 2 5, s'))
        /\ nth 1 (text_lines text) "" = benefit_line
        /\ nth 2 (text_lines text) "" = weight_line).
Proof.
  destruct (@value_lines_shared counter_source insertion_order
              3 2 600 400 (Some 7) 0%nat) as (bl & wl & G & C); try lia.
  exists bl, wl. split; [apply G; lia | apply C, counter_fair; lia].
Defined.

(** ** The text determines the instance *)

Lemma map_injective {A B} (f : A -> B) :
  (forall x y, f x = f y -> x = y) ->
  forall l l', map f l = map f l' -> l = l'.
Proof.
  intros Hf. induction l as [|x l IH]; intros [|y l'] H; simpl in H;
    try discriminate; [reflexivity|].
  injection H as Hx Hl. f_equal; auto.
Qed.

Lemma str_not_empty z : str z <> "".
Proof.
  intros H.
  assert (R : NilZero.int_of_string (str z) = None) by now rewrite H.
  unfold str in R. rewrite NilZero.isi in R; [discriminate| |];
    destruct z; simpl; try discriminate;
    intros [= E]; now apply DecimalPos.Unsigned.to_uint_nonnil in E.
Qed.

Lemma values_line_empty vs : values_line vs = "" -> vs = [].
Proof.
  destruct vs as [|v vs]; [reflexivity|]. intros H. exfalso.
  unfold values_line, join in H. simpl in H.
  destruct (map str vs) as [|w ws].
  - now apply (str_not_empty v).
  - destruct (str v) eqn:E; [now apply (str_not_empty v) | discriminate].
Qed.

Lemma values_line_inj vs vs' : values_line vs = values_line vs' -> vs = vs'.
Proof.
  intros H.
  destruct vs as [|v vs].
  - symmetry. apply values_line_empty. now rewrite <- H.
  - destruct vs' as [|v' vs'].
    + apply values_line_empty. now rewrite H.
    + apply (map_injective str str_inj).
      rewrite <- !split_values by discriminate. now rewrite H.
Qed.

(** X16. The text written by either script determines the instance: two
    instances with the same text have the same sizes, capacity, values and
    pairs, in the same order. *)
Theorem render_injective (I1 I2 : instance) : render I1 = render I2 -> I1 = I2.
Proof.
  intros H.
  pose proof (text_lines_render I1) as L1. rewrite H, text_lines_render in L1.
  unfold out_lines in L1. cbn [Datatypes.app] in L1.
  injection L1 as Hh Hb Hd Hp.
  pose proof (split_header (inst_m I2) (inst_n I2) (inst_ne I2) (inst_b I2)) as F.
  rewrite Hh, split_header in F. injection F as Fm Fn Fne Fb.
  apply str_inj in Fm, Fn, Fne, Fb.
  apply values_line_inj in Hb, Hd.
  apply (map_injective pair_line pair_line_inj) in Hp.
  destruct I1, I2; simpl in *; congruence.
Qed.

Lemma render_injective_witness :
  {| inst_m := 1; inst_n := 1; inst_ne := 1; inst_b := 7;
     benefits := [10]; deps := [5]; pairs := [(0, 0)] |}
  = {| inst_m := 1; inst_n := 1; inst_ne := 1; inst_b := 7;
       benefits := [10]; deps := [5]; pairs := [(0, 0)] |}.
Proof. apply render_injective. reflexivity. Defined.

(** ** The callers: [__main__] of [instance_generator.py], [# exemplo] *)

Section Callers.
Context {RS : RandomSource} {SI : SetIteration}.

Lemma report_run e s :
  InstanceGenerator.report e s = (Ok tt, [report_event e], s).
Proof. now destruct e. Qed.

(** The three prompts come first; an exception of the body is answered
    with the message of its class and the block ends normally. *)
Lemma prompted_run (body : M unit) s :
  try_except
    (print "▶ Enter values for m, n, ne, b (space-separated)." ;;;
     print "  Note: 'ne' must be >= m and <= m*n." ;;;
     print "  Example: 870 900 1500 18383" ;;;
     body)
    InstanceGenerator.report s
  = match body s with
    | (Raise e, t, s') => (Ok tt, (prompts ++ t) ++ [report_event e], s')
    | (r, t, s') => (r, prompts ++ t, s')
    end.
Proof.
  unfold try_except, bind, print.
  destruct (body s) as [[[u|e|] t] s']; try reflexivity.
  now rewrite report_run.
Qed.

Lemma main_body_run fuel now failure m n ne b s text t s' :
  InstanceGenerator.gen_instance fuel m n ne b 600 400 (Some 42) s = (Ok text, t, s') ->
  (sizes <- InstanceGenerator.read_sizes (InstanceGenerator.Integers [m; n; ne; b]) ;;
   let '(m, n, ne, b) := sizes in
   instance_data <- InstanceGenerator.gen_instance fuel m n ne b 600 400 (Some 42) ;;
   write_file failure (now ++ ".knapsack.txt") instance_data ;;;
   print ("✅ Problem instance successfully saved as: " ++ (now ++ ".knapsack.txt")))%string s
  = match failure with
    | None =>
        (Ok tt,
         t ++ [WriteFile (now ++ ".knapsack.txt") text;
               Print ("✅ Problem instance successfully saved as: "
                      ++ (now ++ ".knapsack.txt"))],
         s')
    | Some msg => (Raise (IOError msg), t ++ [], s')
    end.
Proof.
  intros H.
  rewrite (bind_quiet _ _ _ (m, n, ne, b) s eq_refl).
  rewrite (bind_ok _ _ _ _ _ _ H). now destruct failure.
Qed.
End Callers.

(** X12. Given a line that does not amount to exactly four integers, the
    [__main__] block prints its prompts and the invalid-input message; given
    no line at all (end of file), it prints its prompts and "Unexpected
    error: EOF when reading a line".  Either way it ends normally, writes no
    file and does not touch the random source. *)
Theorem main_rejects_malformed_input {RS : RandomSource} {SI : SetIteration}
        fuel now typed failure s :
  (forall m n ne b, typed <> InstanceGenerator.Integers [m; n; ne; b]) ->
  InstanceGenerator.main fuel now typed failure s
  = (Ok tt,
     prompts ++ [match typed with
                 | InstanceGenerator.EndOfFile =>
                     Print "❌ Unexpected error: EOF when reading a line"
                 | _ =>
                     Print "❌ Invalid input. Please enter four integers separated by spaces."
                 end],
     s).
Proof.
  intros H. unfold InstanceGenerator.main. rewrite prompted_run.
  destruct typed as [[|m [|n [|ne [|b [|x l]]]]]| |]; try reflexivity.
  now contradiction (H m n ne b).
Qed.

Lemma main_rejects_malformed_input_witness :
  @InstanceGenerator.main counter_source insertion_order
    9 "20250101_120000" (InstanceGenerator.Integers [3; 2; 4]) None 5%nat
  = (Ok tt,
     prompts ++ [Print "❌ Invalid input. Please enter four integers separated by spaces."],
     5%nat)
  /\
  @InstanceGenerator.main counter_source insertion_order
    9 "20250101_120000" InstanceGenerator.EndOfFile None 5%nat
  = (Ok tt, prompts ++ [Print "❌ Unexpected error: EOF when reading a line"], 5%nat).
Proof.
  split.
  - apply (@main_rejects_malformed_input counter_source insertion_order
             9%nat "20250101_120000" (InstanceGenerator.Integers [3; 2; 4]) None 5%nat).
    intros m n ne b. discriminate.
  - apply (@main_rejects_malformed_input counter_source insertion_order
             9%nat "20250101_120000" InstanceGenerator.EndOfFile None 5%nat).
    intros m n ne b. discriminate.
Defined.

(** X13. Given four integers with sizes of at least one, the [__main__]
    block prints its prompts and the notice of an adjusted [ne] and then
    tries to save the text of [gen_instance(m, n, ne, b, seed=42)] under
    the name made of the time stamp.  If the file system lets it, that one
    file is written and success is reported; if opening or writing raises
    an [IOError], nothing is reported as saved and "File error:" is printed
    with the text of the error. *)
Theorem main_saves_generated_text {RS : RandomSource} {SI : SetIteration}
        now m n ne b s :
  1 <= m -> 1 <= n -> fair m n ->
  exists fuel text s',
    forall fuel', (fuel <= fuel')%nat ->
      InstanceGenerator.gen_instance fuel' m n ne b 600 400 (Some 42) s
      = (Ok text, notices m n ne, s')
      /\ InstanceGenerator.main fuel' now (InstanceGenerator.Integers [m; n; ne; b])
           None s
         = (Ok tt,
            prompts ++ notices m n ne
              ++ [WriteFile (now ++ ".knapsack.txt") text;
                  Print ("✅ Problem instance successfully saved as: "
                         ++ (now ++ ".knapsack.txt"))],
            s')
      /\ forall msg,
           InstanceGenerator.main fuel' now (InstanceGenerator.Integers [m; n; ne; b])
             (Some msg) s
           = (Ok tt,
              (prompts ++ notices m n ne) ++ [Print ("❌ File error: " ++ msg)],
              s').
Proof.
  intros Hm Hn Hfair.
  destruct (build_total m n ne b 600 400 (Some 42) s Hm Hn ltac:(lia) ltac:(lia) Hfair)
    as (fuel & I & s' & E & _).
  exists fuel, (render I), s'. intros fuel' Hle.
  pose proof (clamp_text _ _ _ _ _ _ _ _ _ _ _ _ (E fuel' Hle)) as G.
  split; [exact G|]. split.
  - unfold InstanceGenerator.main. rewrite prompted_run.
    now rewrite (main_body_run fuel' now None m n ne b s _ _ _ G).
  - intros msg. unfold InstanceGenerator.main. rewrite prompted_run.
    rewrite (main_body_run fuel' now (Some msg) m n ne b s _ _ _ G).
    now rewrite app_nil_r.
Qed.

Lemma main_saves_generated_text_witness :
  exists fuel text s',
    forall fuel', (fuel <= fuel')%nat ->
      @InstanceGenerator.gen_instance counter_source insertion_order
        fuel' 3 2 7 100 600 400 (Some 42) 5%nat
      = (Ok text, notices 3 2 7, s')
      /\ @InstanceGenerator.main counter_source insertion_order
           fuel' "20250101_120000" (InstanceGenerator.Integers [3; 2; 7; 100])
           None 5%nat
         = (Ok tt,
            prompts ++ notices 3 2 7
              ++ [WriteFile ("20250101_120000" ++ ".knapsack.txt") text;
                  Print ("✅ Problem instance successfully saved as: "
                         ++ ("20250101_120000" ++ ".knapsack.txt"))],
            s')
      /\ forall msg,
           @InstanceGenerator.main counter_source insertion_order
             fuel' "20250101_120000" (InstanceGenerator.Integers [3; 2; 7; 100])
             (Some msg) 5%nat
           = (Ok tt,
              (prompts ++ notices 3 2 7) ++ [Print ("❌ File error: " ++ msg)],
              s').
Proof.
  apply (@main_saves_generated_text counter_source insertion_order
           "20250101_120000" 3 2 7 100 5%nat); try lia.
  apply counter_fair; lia.
Defined.

(** X14. The [__main__] block takes a [ValueError] of the generator for
    bad input: with four integers of which [n <= 0 < m], the empty range
    of the coverage draw makes [gen_instance] raise, and the block prints
    the invalid-input message (after the notice of an adjusted [ne]) and
    writes no file. *)
Theorem main_reports_generator_error {RS : RandomSource} {SI : SetIteration}
        fuel now failure m n ne b s :
  1 <= m -> n <= 0 ->
  exists s',
    InstanceGenerator.main fuel now (InstanceGenerator.Integers [m; n; ne; b])
      failure s
    = (Ok tt, (prompts ++ notices m n ne) ++ [invalid_input], s').
Proof.
  intros Hm Hn.
  destruct (clamp_variant_raises_value_error fuel m n ne b 600 400 (Some 42) s Hm Hn)
    as (e & s' & E & He).
  exists s'. unfold InstanceGenerator.main. rewrite prompted_run.
  rewrite (bind_quiet _ _ _ (m, n, ne, b) s eq_refl).
  rewrite (bind_raise _ _ _ _ _ _ E).
  now destruct e.
Qed.

Lemma main_reports_generator_error_witness :
  exists s',
    @InstanceGenerator.main counter_source insertion_order
      9 "20250101_120000" (InstanceGenerator.Integers [3; 0; 4; 100]) None 5%nat
    = (Ok tt, (prompts ++ notices 3 0 4) ++ [invalid_input], s').
Proof.
  apply (@main_reports_generator_error counter_source insertion_order
           9%nat "20250101_120000" None 3 0 4 100 5%nat); lia.
Defined.

(** X15. Loading [gerador_de_instâncias.py] prints one instance and
    nothing else: a text laid out for 10 packages, 15 dependencies, 60
    pairs and capacity 3000, with 60 distinct pair lines, whatever the
    random source yields for the seed 42. *)
Theorem exemplo_prints_one_instance {RS : RandomSource} (s : rstate) :
  exists text s',
    GeradorDeInstancias.exemplo s = (Ok tt, [Print text], s')
    /\ laid_out 10 15 60 3000 text
    /\ NoDup (pair_lines text).
Proof.
  destruct (enumerate_ok 10 15 60 3000 600 400 (Some 42) s
              ltac:(lia) ltac:(lia) ltac:(lia) ltac:(lia) ltac:(lia))
    as (I & s' & E & Im & In' & Ine & Ib & Lb & _ & Ld & _ & Hnd & _ & Lp).
  exists (render I), s'. split; [|split].
  - unfold GeradorDeInstancias.exemplo.
    now rewrite (bind_ok _ _ _ _ _ _ (raise_text _ _ _ _ _ _ _ _ _ _ _ E)).
  - rewrite <- Im, <- In', <- Ine, <- Ib.
    apply render_laid_out; unfold len in *; lia.
  - rewrite pair_lines_render.
    apply Injective_map_NoDup; [intros x y; apply pair_line_inj | exact Hnd].
Qed.

(** X17. With no packages ([m = 0]) [instance_generator.py] draws no
    benefit and no pair and never enters its loop: whatever [ne], [n] and
    [benefit_max], it adjusts [ne] to [0] and returns three lines, the
    header ["0 n 0 b"], an empty benefit line and the weights. *)
Theorem clamp_variant_without_packages {RS : RandomSource} {SI : SetIteration}
        fuel n ne b benefit_max dep_max sd s :
  5 <= dep_max ->
  exists ds s',
    InstanceGenerator.gen_instance fuel 0 n ne b benefit_max dep_max sd s
    = (Ok (render {| inst_m := 0; inst_n := n; inst_ne := 0; inst_b := b;
                     benefits := []; deps := ds; pairs := [] |}),
       notices 0 n ne, s')
    /\ text_lines (render {| inst_m := 0; inst_n := n; inst_ne := 0; inst_b := b;
                             benefits := []; deps := ds; pairs := [] |})
       = [header_line 0 n 0 b; ""; values_line ds]
    /\ len ds = Z.max 0 n.
Proof.
  intros Hd.
  destruct (for_list_randint 5 dep_max Hd (range n) (seeded sd s))
    as (ds & s1 & Ed & Ld & _).
  destruct (shuffle_ok (iteration_order []) s1) as (ps & s2 & Es & P).
  pose proof (iteration_order_perm []) as P0. apply Permutation_nil in P0.
  rewrite P0 in P, Es. apply Permutation_nil in P. subst ps.
  assert (Ha : adjusted 0 n ne = 0).
  { unfold adjusted. destruct (Z.ltb_spec ne 0); [reflexivity|].
    destruct (Z.gtb_spec ne (0 * n)); lia. }
  exists ds, s2. split; [|split].
  - apply clamp_text. unfold InstanceGenerator.build.
    rewrite (bind_quiet _ _ _ _ _ (seed_step sd s)).
    rewrite (bind_ok _ _ _ _ _ _ (adjust_run 0 n ne (seeded sd s))).
    rewrite Ha. change (range 0) with (@nil Z).
    rewrite (bind_quiet (for_list [] _) _ (seeded sd s) [] _ eq_refl).
    rewrite (bind_quiet _ _ _ _ _ Ed).
    unfold InstanceGenerator.cover. change (range 0) with (@nil Z).
    rewrite (bind_quiet (for_fold [] _ _) _ s1 [] s1 eq_refl).
    rewrite (fill_done fuel 0 n 0 []) by (unfold len; simpl; lia).
    rewrite (bind_quiet (ret []) _ s1 [] s1 eq_refl).
    rewrite P0, (bind_quiet _ _ _ _ _ Es).
    unfold ret. now rewrite app_nil_r.
  - now rewrite text_lines_render.
  - rewrite length_range in Ld. unfold len. lia.
Qed.

Lemma clamp_variant_without_packages_witness :
  exists ds s',
    @InstanceGenerator.gen_instance counter_source insertion_order
      0 0 2 5 100 600 400 (Some 7) 0%nat
    = (Ok (render {| inst_m := 0; inst_n := 2; inst_ne := 0; inst_b := 100;
                     benefits := []; deps := ds; pairs := [] |}),
       notices 0 2 5, s')
    /\ text_lines (render {| inst_m := 0; inst_n := 2; inst_ne := 0; inst_b := 100;
                             benefits := []; deps := ds; pairs := [] |})
       = [header_line 0 2 0 100; ""; values_line ds]
    /\ len ds = Z.max 0 2.
Proof.
  apply (@clamp_variant_without_packages counter_source insertion_order
           0%nat 2 5 100 600 400 (Some 7) 0%nat). lia.
Defined.

(** ** Non-positive arguments *)

Section NonPositive.
Context {RS : RandomSource} {SI : SetIteration}.

(** With two negative sizes and a positive [ne] nothing is drawn before the
    loop, and its first draw, [randint(0, m - 1)], has an empty range. *)
Lemma clamp_variant_raises_in_loop fuel m n ne b benefit_max dep_max sd s :
  m < 0 -> n < 0 -> 0 < ne ->
  exists e s',
    InstanceGenerator.gen_instance (S fuel) m n ne b benefit_max dep_max sd s
    = (Raise e, notices m n ne, s')
    /\ is_ValueError e = true.
Proof.
  intros Hm Hn Hne.
  assert (Ha : 0 < adjusted m n ne).
  { unfold adjusted. destruct (Z.ltb_spec ne m); [lia|].
    destruct (Z.gtb_spec ne (m * n)); nia. }
  assert (Hfill : forall s0,
             InstanceGenerator.fill (S fuel) m n (adjusted m n ne) [] s0
             = (Raise (ValueError_empty_range 0 (m - 1)), [], s0)).
  { intros s0. cbn [InstanceGenerator.fill].
    replace (len (@nil (Z * Z)) <? adjusted m n ne) with true
      by (symmetry; apply Z.ltb_lt; unfold len; simpl; lia).
    apply bind_raise, randint_raises. lia. }
  exists (ValueError_empty_range 0 (m - 1)), (seeded sd s). split; [|reflexivity].
  unfold InstanceGenerator.gen_instance, InstanceGenerator.build.
  apply bind_raise.
  rewrite (bind_quiet _ _ _ _ _ (seed_step sd s)).
  rewrite (bind_ok _ _ _ _ _ _ (adjust_run m n ne (seeded sd s))).
  rewrite (range_nil m) by lia.
  rewrite (bind_quiet (for_list [] _) _ (seeded sd s) [] _ eq_refl).
  rewrite (range_nil n) by lia.
  rewrite (bind_quiet (for_list [] _) _ (seeded sd s) [] _ eq_refl).
  unfold InstanceGenerator.cover. rewrite (range_nil m) by lia.
  rewrite (bind_quiet (for_fold [] _ _) _ (seeded sd s) [] _ eq_refl).
  rewrite (bind_raise _ _ _ _ _ _ (Hfill (seeded sd s))).
  now rewrite app_nil_r.
Qed.

(** Without packages, and unless the loop is entered, nothing can fail. *)
Lemma clamp_variant_returns_without_packages
      fuel m n ne b benefit_max dep_max sd s :
  m <= 0 -> ~ (m < 0 /\ n < 0 /\ 0 < ne) -> 5 <= dep_max ->
  exists text s',
    InstanceGenerator.gen_instance fuel m n ne b benefit_max dep_max sd s
    = (Ok text, notices m n ne, s').
Proof.
  intros Hm Hno Hd.
  assert (Ha : adjusted m n ne <= 0).
  { unfold adjusted. destruct (Z.ltb_spec ne m); [lia|].
    destruct (Z.gtb_spec ne (m * n));
      destruct (Z_lt_le_dec m 0), (Z_lt_le_dec n 0), (Z_lt_le_dec 0 ne);
      try nia; exfalso; apply Hno; lia. }
  destruct (for_list_randint 5 dep_max Hd (range n) (seeded sd s))
    as (ds & s1 & Ed & _).
  destruct (shuffle_ok (iteration_order []) s1) as (ps & s2 & Es & _).
  eexists _, s2. apply clamp_text. unfold InstanceGenerator.build.
  rewrite (bind_quiet _ _ _ _ _ (seed_step sd s)).
  rewrite (bind_ok _ _ _ _ _ _ (adjust_run m n ne (seeded sd s))).
  rewrite (range_nil m) by lia.
  rewrite (bind_quiet (for_list [] _) _ (seeded sd s) [] _ eq_refl).
  rewrite (bind_quiet _ _ _ _ _ Ed).
  unfold InstanceGenerator.cover. rewrite (range_nil m) by lia.
  rewrite (bind_quiet (for_fold [] _ _) _ s1 [] s1 eq_refl).
  rewrite (fill_done fuel m n (adjusted m n ne) []) by (unfold len; simpl; lia).
  rewrite (bind_quiet (ret []) _ s1 [] s1 eq_refl).
  rewrite (bind_quiet _ _ _ _ _ Es).
  unfold ret. now rewrite app_nil_r.
Qed.

(** With sizes of at least one a bounded run has returned or is still in
    the loop. *)
Lemma clamp_variant_outcomes fuel m n ne b benefit_max dep_max sd s :
  1 <= m -> 1 <= n -> 10 <= benefit_max -> 5 <= dep_max ->
  (exists s',
      InstanceGenerator.gen_instance fuel m n ne b benefit_max dep_max sd s
      = (OutOfFuel, notices m n ne, s'))
  \/ (exists text s',
        InstanceGenerator.gen_instance fuel m n ne b benefit_max dep_max sd s
        = (Ok text, notices m n ne, s')).
Proof.
  intros Hm Hn Hb Hd.
  destruct (values_drawn m n benefit_max dep_max (seeded sd s) Hb Hd)
    as (bs & ds & s1 & s2 & Eb & Ed & _).
  destruct (clamp_variant_shape m n benefit_max dep_max sd s bs ds s1 s2 Hn Eb Ed)
    as (S & s3 & _ & _ & _ & _ & _ & Hrun).
  specialize (Hrun fuel ne b).
  destruct (fill_safe m n (adjusted m n ne) Hm Hn fuel S s3)
    as [(s' & Hf)|(S' & s' & Hf)].
  - left. exists s'.
    assert (Hfin : finish fuel m n (adjusted m n ne) b bs ds S s3
                   = (OutOfFuel, [], s'))
      by (unfold finish, bind; now rewrite Hf).
    rewrite Hfin, app_nil_r in Hrun.
    exact (clamp_text_of_build _ _ _ _ _ _ _ _ _ _ _ _ Hrun).
  - right.
    destruct (finish_run fuel m n (adjusted m n ne) b bs ds S s3 S' s' Hf)
      as (ps & s4 & Hfin & _).
    eexists _, s4.
    exact (clamp_text_of_finish _ _ _ _ _ _ _ _ _ _ _ _ _ _ _ Hrun Hfin).
Qed.

(** Asked for more pairs than it enumerated, [gerador_de_instâncias.py]
    fails, at the latest on its own test. *)
Lemma raise_variant_fails_above_grid m n ne b benefit_max dep_max sd s :
  grid_size m n < ne ->
  exists e s',
    GeradorDeInstancias.gen_instance m n ne b benefit_max dep_max sd s
    = (Raise e, [], s')
    /\ is_ValueError e = true.
Proof.
  intros Hne.
  unfold GeradorDeInstancias.gen_instance, GeradorDeInstancias.build.
  destruct (for_list_randint_cases 10 benefit_max (range m) (seeded sd s))
    as [(bs & s1 & Eb)|Eb].
  - destruct (for_list_randint_cases 5 dep_max (range n) s1)
      as [(ds & s2 & Ed)|Ed].
    + destruct (shuffle_ok (GeradorDeInstancias.all_pairs m n) s2)
        as (ap & s3 & Es & P).
      assert (L : len ap = grid_size m n).
      { rewrite <- len_grid. unfold len. now rewrite (Permutation_length P). }
      exists (ValueError "ne cannot exceed m*n"), s3. split; [|reflexivity].
      apply bind_raise.
      rewrite (bind_quiet _ _ _ _ _ (seed_step sd s)).
      rewrite (bind_quiet _ _ _ _ _ Eb).
      rewrite (bind_quiet _ _ _ _ _ Ed).
      rewrite (bind_quiet _ _ _ _ _ Es).
      apply bind_raise. rewrite L.
      now replace (ne >? grid_size m n) with true
        by (symmetry; rewrite Z.gtb_ltb; apply Z.ltb_lt; lia).
    + exists (ValueError_empty_range 5 dep_max), s1. split; [|reflexivity].
      apply bind_raise.
      rewrite (bind_quiet _ _ _ _ _ (seed_step sd s)).
      rewrite (bind_quiet _ _ _ _ _ Eb).
      now apply bind_raise.
  - exists (ValueError_empty_range 10 benefit_max), (seeded sd s).
    split; [|reflexivity].
    apply bind_raise.
    rewrite (bind_quiet _ _ _ _ _ (seed_step sd s)).
    now apply bind_raise.
Qed.
End NonPositive.

(** C6, as stated, fails: neither script checks that its arguments are
    positive.  With the capacity [b = -5] both return an instance, the
    header carrying [-5]. *)
Lemma nonpositive_capacity_accepted :
  -5 <= 0 /\
  @GeradorDeInstancias.gen_instance counter_source 3 2 4 (-5) 600 400 (Some 7) 0%nat
  = (Ok (render {| inst_m := 3; inst_n := 2; inst_ne := 4; inst_b := -5;
                   benefits := [10; 11; 11]; deps := [6; 6];
                   pairs := [(2, 0); (1, 0); (1, 1); (2, 1)] |}),
     [], 17%nat)
  /\
  (forall SI : SetIteration,
     exists fuel text s',
       @InstanceGenerator.gen_instance counter_source SI
         fuel 3 2 4 (-5) 600 400 (Some 7) 0%nat
       = (Ok text, [], s')
       /\ header_fields text = [str 3; str 2; str 4; str (-5)]).
Proof.
  split; [lia|]. split; [vm_compute; reflexivity|].
  intros SI.
  destruct (@build_total counter_source SI 3 2 4 (-5) 600 400 (Some 7) 0%nat
              ltac:(lia) ltac:(lia) ltac:(lia) ltac:(lia)
              (counter_fair 3 2 ltac:(lia) ltac:(lia)))
    as (fuel & I & s' & E & Im & In' & Ine & Ib & _).
  exists fuel, (render I), s'. split.
  - exact (clamp_text _ _ _ _ _ _ _ _ _ _ _ _ (E fuel (Nat.le_refl _))).
  - rewrite header_fields_render, Im, In', Ine, Ib. reflexivity.
Qed.

(** C6, amended. [gen_instance] has no positivity check.  The capacity
    [b] is never inspected: for valid sizes and any integer [b] both scripts
    return an instance whose header carries [b].  With sampling ranges
    that are not empty, a call fails, with [ValueError], exactly where a
    draw has an empty range or the [ne > len(all_pairs)] test strikes:

    - [instance_generator.py] fails when [n <= 0 < m] (coverage draw) and
      when [m < 0], [n < 0] and [ne > 0] (first draw of the loop); it does
      not fail for [m, n >= 1], nor for [m <= 0] otherwise;
    - [gerador_de_instâncias.py] fails when [ne > max(m,0) * max(n,0)],
      hence for a non-positive size when [ne > 0], and returns for every
      other [ne]. *)
Theorem no_positivity_check {RS : RandomSource} {SI : SetIteration}
        m n ne b benefit_max dep_max sd s :
  (1 <= m -> 1 <= n -> m <= ne <= m * n ->
   10 <= benefit_max -> 5 <= dep_max ->
     (exists text s',
         GeradorDeInstancias.gen_instance m n ne b benefit_max dep_max sd s
         = (Ok text, [], s')
         /\ nth 3 (header_fields text) "" = str b)
     /\
     (fair m n ->
      exists fuel text s',
         (forall fuel', (fuel <= fuel')%nat ->
            InstanceGenerator.gen_instance fuel' m n ne b benefit_max dep_max sd s
            = (Ok text, [], s'))
         /\ nth 3 (header_fields text) "" = str b))
  /\
  (1 <= m -> n <= 0 ->
     forall fuel, exists e s',
       InstanceGenerator.gen_instance fuel m n ne b benefit_max dep_max sd s
       = (Raise e, notices m n ne, s')
       /\ is_ValueError e = true)
  /\
  (m < 0 -> n < 0 -> 0 < ne ->
     forall fuel, exists e s',
       InstanceGenerator.gen_instance (S fuel) m n ne b benefit_max dep_max sd s
       = (Raise e, notices m n ne, s')
       /\ is_ValueError e = true)
  /\
  (1 <= m -> 1 <= n -> 10 <= benefit_max -> 5 <= dep_max ->
     forall fuel e,
       result (InstanceGenerator.gen_instance
                 fuel m n ne b benefit_max dep_max sd s) <> Raise e)
  /\
  (m <= 0 -> ~ (m < 0 /\ n < 0 /\ 0 < ne) -> 5 <= dep_max ->
     forall fuel, exists text s',
       InstanceGenerator.gen_instance fuel m n ne b benefit_max dep_max sd s
       = (Ok text, notices m n ne, s'))
  /\
  (grid_size m n < ne ->
     exists e s',
       GeradorDeInstancias.gen_instance m n ne b benefit_max dep_max sd s
       = (Raise e, [], s')
       /\ is_ValueError e = true)
  /\
  (ne <= grid_size m n -> 10 <= benefit_max -> 5 <= dep_max ->
     exists text s',
       GeradorDeInstancias.gen_instance m n ne b benefit_max dep_max sd s
       = (Ok text, [], s')).
Proof.
  repeat apply conj.
  - intros Hm Hn Hne Hb Hd. split.
    + destruct (enumerate_ok m n ne b benefit_max dep_max sd s
                  ltac:(lia) ltac:(lia) ltac:(lia) Hb Hd)
        as (I & s' & E & _ & _ & _ & Ib & _).
      exists (render I), s'. split; [now apply raise_text|].
      rewrite header_fields_render. simpl. congruence.
    + intros Hfair.
      destruct (build_total m n ne b benefit_max dep_max sd s Hm Hn Hb Hd Hfair)
        as (fuel & I & s' & E & _ & _ & _ & Ib & _).
      rewrite (notices_valid m n ne Hne) in E.
      exists fuel, (render I), s'.
      split; [intros fuel' Hle; now apply clamp_text, E|].
      rewrite header_fields_render. simpl. congruence.
  - intros Hm Hn fuel. now apply clamp_variant_raises_value_error.
  - intros Hm Hn Hne fuel. now apply clamp_variant_raises_in_loop.
  - intros Hm Hn Hb Hd fuel e.
    destruct (clamp_variant_outcomes fuel m n ne b benefit_max dep_max sd s
                Hm Hn Hb Hd) as [(s' & E)|(text & s' & E)];
      rewrite E; discriminate.
  - intros Hm Hno Hd fuel. now apply clamp_variant_returns_without_packages.
  - intros Hne. now apply raise_variant_fails_above_grid.
  - intros Hne Hb Hd.
    destruct (raise_variant_result m n benefit_max dep_max sd s Hb Hd)
      as (bs & ds & ap & s3 & _ & _ & Hrun).
    pose proof (Hrun ne b) as E.
    replace (ne >? grid_size m n) with false in E
      by (symmetry; rewrite Z.gtb_ltb; apply Z.ltb_ge; lia).
    eexists _, s3. exact E.
Qed.

Lemma no_positivity_check_witness :
  ((exists text s',
       @GeradorDeInstancias.gen_instance counter_source 3 2 4 (-5) 600 400 (Some 7) 0%nat
       = (Ok text, [], s')
       /\ nth 3 (header_fields text) "" = str (-5))
   /\
   (exists fuel text s',
       (forall fuel', (fuel <= fuel')%nat ->
          @InstanceGenerator.gen_instance counter_source insertion_order
            fuel' 3 2 4 (-5) 600 400 (Some 7) 0%nat
          = (Ok text, [], s'))
       /\ nth 3 (header_fields text) "" = str (-5)))
  /\
  (forall fuel, exists e s',
      @InstanceGenerator.gen_instance counter_source insertion_order
        fuel 3 0 4 100 600 400 (Some 7) 0%nat
      = (Raise e, notices 3 0 4, s')
      /\ is_ValueError e = true)
  /\
  (forall fuel, exists e s',
      @InstanceGenerator.gen_instance counter_source insertion_order
        (S fuel) (-2) (-3) 3 100 600 400 (Some 7) 0%nat
      = (Raise e, notices (-2) (-3) 3, s')
      /\ is_ValueError e = true)
  /\
  (forall fuel e,
      result (@InstanceGenerator.gen_instance counter_source insertion_order
                fuel 3 2 (-4) 0 600 400 (Some 7) 0%nat) <> Raise e)
  /\
  (forall fuel, exists text s',
      @InstanceGenerator.gen_instance counter_source insertion_order
        fuel (-2) 3 (-1) 100 600 400 (Some 7) 0%nat
      = (Ok text, notices (-2) 3 (-1), s'))
  /\
  (exists e s',
      @GeradorDeInstancias.gen_instance counter_source 0 2 1 100 600 400 (Some 7) 0%nat
      = (Raise e, [], s')
      /\ is_ValueError e = true)
  /\
  (exists text s',
      @GeradorDeInstancias.gen_instance counter_source 0 (-2) (-1) 0 600 400 (Some 7) 0%nat
      = (Ok text, [], s')).
Proof.
  repeat apply conj.
  - destruct (@no_positivity_check counter_source insertion_order
                3 2 4 (-5) 600 400 (Some 7) 0%nat) as (V & _).
    destruct V as [G _]; try lia. exact G.
  - destruct (@no_positivity_check counter_source insertion_order
                3 2 4 (-5) 600 400 (Some 7) 0%nat) as (V & _).
    destruct V as [_ C]; try lia. apply C, counter_fair; lia.
  - destruct (@no_positivity_check counter_source insertion_order
                3 0 4 100 600 400 (Some 7) 0%nat) as (_ & A & _).
    apply A; lia.
  - destruct (@no_positivity_check counter_source insertion_order
                (-2) (-3) 3 100 600 400 (Some 7) 0%nat) as (_ & _ & A & _).
    apply A; lia.
  - destruct (@no_positivity_check counter_source insertion_order
                3 2 (-4) 0 600 400 (Some 7) 0%nat) as (_ & _ & _ & A & _).
    apply A; lia.
  - destruct (@no_positivity_check counter_source insertion_order
                (-2) 3 (-1) 100 600 400 (Some 7) 0%nat) as (_ & _ & _ & _ & A & _).
    apply A; lia.
  - destruct (@no_positivity_check counter_source insertion_order
                0 2 1 100 600 400 (Some 7) 0%nat) as (_ & _ & _ & _ & _ & A & _).
    apply A. unfold grid_size. lia.
  - destruct (@no_positivity_check counter_source insertion_order
                0 (-2) (-1) 0 600 400 (Some 7) 0%nat) as (_ & _ & _ & _ & _ & _ & A).
    apply A; unfold grid_size; lia.
Defined.
